(** * Coderzz.AI: the bandit policy, the credential and tenant stores, the
      session callbacks and the execution helper of [output.py].

    Conventions of the embedding.
    - A Python [str] is a Rocq [string], one [ascii] per character.
    - A numpy [float64] is a primitive binary64 float ([PrimFloat.float]);
      the operations are the IEEE ones, NaN and signed zeros included.
    - Code that may raise returns a [Res]; a raised exception carries its
      class and its message.
    - What the program reads from outside (the clock, the random generator,
      the salt of the hash, the HTTP answer, the run of [exec]) is an
      argument of the function that reads it. *)

From Stdlib Require Import Floats ZArith Ascii String List Bool Lia.
From Stdlib Require DecimalString.
From stdpp Require Import base option list strings gmap sorting.

#[local] Open Scope string_scope.
#[local] Open Scope list_scope.

(** ** Predicates on binary64 floats *)

Module F64.

Definition is_nan (x : float) : bool := PrimFloat.is_nan x.

(** IEEE equality extended to NaN: the same float, or two floats that
    compare equal (the two zeros). *)
Definition feq (x y : float) : Prop := x = y \/ PrimFloat.eqb x y = true.

(** [x] is strictly below [m] in the order numpy's reductions use, where a
    NaN is above every other float. *)
Definition below (x m : float) : Prop :=
  PrimFloat.ltb x m = true \/ (is_nan m = true /\ is_nan x = false).

End F64.

(** ** Python results and exceptions *)

(** The exception classes the program meets.  [SystemExit],
    [KeyboardInterrupt] and [GeneratorExit] derive from [BaseException]
    only; a class defined by executed code says which base it has. *)
Inductive ExcClass : Type :=
| IndexError
| ValueError
| IntegrityError
| OperationalError
| SystemExit
| KeyboardInterrupt
| OverflowError
| GeneratorExit
| UserDefined (name : string) (from_Exception : bool).

(** [isinstance(e, Exception)], the test of an [except Exception] clause. *)
Definition is_Exception (c : ExcClass) : bool :=
  match c with
  | SystemExit | KeyboardInterrupt | GeneratorExit => false
  | UserDefined _ b => b
  | _ => true
  end.

Record PyExc : Type := mkExc { exc_class : ExcClass; exc_msg : string }.

Inductive Res (A : Type) : Type :=
| Ok (a : A)
| Raise (e : PyExc).
Arguments Ok {A} a.
Arguments Raise {A} e.

#[global] Instance Res_ret : MRet Res := fun A a => Ok a.

#[global] Instance Res_bind : MBind Res := fun A B k m =>
  match m with
  | Ok a => k a
  | Raise e => Raise e
  end.

(** ** Python string operations *)

Module Text.

Section sequences.
Context {A : Type} `{EqDecision A}.

(** [l.startswith(sep)] *)
Fixpoint starts_with (sep l : list A) : bool :=
  match sep, l with
  | [], _ => true
  | _ :: _, [] => false
  | a :: sep', b :: l' => bool_decide (a = b) && starts_with sep' l'
  end.

(** [l.find(sep)]: the lowest index at which [sep] occurs in [l]. *)
Fixpoint find (sep l : list A) : option nat :=
  match l with
  | [] => if starts_with sep [] then Some 0 else None
  | _ :: l' => if starts_with sep l then Some 0 else S <$> find sep l'
  end.

(** [l.split(sep)] for a separator that is not empty (Python raises
    [ValueError] on an empty one): cut at the leftmost occurrence and go on
    after it.  Every cut consumes at least one character, so [length l]
    cuts are enough. *)
Fixpoint split_fuel (n : nat) (sep l : list A) : list (list A) :=
  match n with
  | 0 => [l]
  | S n' =>
      match find sep l with
      | None => [l]
      | Some i => take i l :: split_fuel n' sep (drop (i + length sep) l)
      end
  end.

Definition split (sep l : list A) : list (list A) :=
  split_fuel (length l) sep l.

(** [sep.join(parts)] *)
Fixpoint join (sep : list A) (parts : list (list A)) : list A :=
  match parts with
  | [] => []
  | [p] => p
  | p :: ps => p ++ sep ++ join sep ps
  end.

Fixpoint lstrip_by (sp : A -> bool) (l : list A) : list A :=
  match l with
  | [] => []
  | c :: l' => if sp c then lstrip_by sp l' else l
  end.

Definition strip_by (sp : A -> bool) (l : list A) : list A :=
  reverse (lstrip_by sp (reverse (lstrip_by sp l))).

End sequences.

(** [str.isspace] on the characters below 256: the ASCII white space, the
    four separators 28-31, next-line and the no-break space. *)
Definition isspace (c : ascii) : bool :=
  let n := nat_of_ascii c in
  ((9 <=? n) && (n <=? 13) || (28 <=? n) && (n <=? 32) ||
   (n =? 133) || (n =? 160))%nat.

Definition chars (s : string) : list ascii := list_ascii_of_string s.
Definition str (l : list ascii) : string := string_of_list_ascii l.

(** [s.strip()] *)
Definition py_strip (s : string) : string := str (strip_by isspace (chars s)).

(** [s.find(sub)] *)
Definition py_find (sub s : string) : option nat := find (chars sub) (chars s).

(** [sub in s] *)
Definition py_in (sub s : string) : bool := bool_decide (is_Some (py_find sub s)).

(** [s.split(sep)] *)
Definition py_split (sep s : string) : list string :=
  str <$> split (chars sep) (chars s).

(** [template.format(arg)] for a template whose only replacement field is
    one [{}], as every entry of [actions] is. *)
Definition py_format (template arg : string) : string :=
  str (join (chars arg) (split (chars "{}") (chars template))).

End Text.

(** ** The bandit policy (lines 312-336) *)

Module Bandit.

#[local] Set Warnings "-inexact-float".
#[local] Open Scope float_scope.

Definition actions : list string :=
  [ "Generate basic code for: {}";
    "Generate structured code with functions and error handling for: {}";
    "Generate code for: {} and add detailed comments for clarity";
    "Generate optimized code for: {}" ]%string.

Definition num_actions : nat := length actions.

(** [np.zeros(num_actions)] *)
Definition initial_Q_table : list float := replicate num_actions 0.

(** [np.maximum] on two scalars: the first operand unless the second is
    greater; a NaN wins. *)
Definition np_maximum (in1 in2 : float) : float :=
  if (in2 <=? in1) || F64.is_nan in1 then in1 else in2.

(** [np.max] of a one-dimensional array: the reduction of [np.maximum]. *)
Definition np_max (a : list float) : Res float :=
  match a with
  | [] => Raise (mkExc ValueError
            "zero-size array to reduction operation maximum which has no identity")
  | x :: l => Ok (fold_left np_maximum l x)
  end.

(** The scan of numpy's [argmax] over the elements after the first: [mp] is
    the running maximum, [best] its index, [i] the index of the head of
    [l].  An element replaces the maximum when [not (x <= mp)]; the scan
    stops at the first NaN. *)
Fixpoint argmax_scan (mp : float) (best i : nat) (l : list float) : nat :=
  match l with
  | [] => best
  | x :: l' =>
      if negb (x <=? mp)
      then if F64.is_nan x then i else argmax_scan x i (S i) l'
      else argmax_scan mp best (S i) l'
  end.

(** [int(np.argmax(a))] *)
Definition np_argmax (a : list float) : Res nat :=
  match a with
  | [] => Raise (mkExc ValueError "attempt to get argmax of an empty sequence")
  | x :: l => Ok (if F64.is_nan x then 0%nat else argmax_scan x 0 1 l)
  end.

(** [get_action]: [u] is the value [random.uniform(0, 1)] returns and [c] the
    one [random.choice(range(num_actions))] returns. *)
Definition get_action (Q_table : list float) (epsilon : float)
    (u : float) (c : nat) : Res nat :=
  if u <? epsilon then Ok c else np_argmax Q_table.

(** [update_Q]: the table is changed in place and returned; here the new
    table is the result. *)
Definition update_Q (Q_table : list float) (action_idx : nat) (reward : float)
    (learning_rate discount_factor : float) : Res (list float) :=
  best_next ← np_max Q_table;
  match Q_table !! action_idx with
  | None => Raise (mkExc IndexError "index out of bounds")
  | Some q =>
      Ok (<[action_idx :=
              q + learning_rate * (reward + discount_factor * best_next - q)]>
            Q_table)
  end.

Definition default_epsilon : float := 0.1.
Definition default_learning_rate : float := 0.1.
Definition default_discount_factor : float := 0.9.

End Bandit.

(** ** The credential store and the tenant stores (lines 79-213)

    The credential database [user_db.sqlite] is the table [users]; [main]
    runs [init_db] before anything else, so the table exists.  A tenant
    database is a file under [user_databases/]; each of its two tables may
    be missing.  Distinct paths are distinct files.  A column holds what
    sqlite3 stores for the Python value bound to it: a [str] as it is, an
    [int] that fits 64 bits, a [float] that is not NaN, and NULL for [None]
    and for NaN. *)

Module Store.

#[local] Set Warnings "-inexact-float".

Record UserRow : Type := mkUser {
  user_id : Z;
  user_username : string;
  user_password : string;
  user_created_at : string }.

Record ChatRow : Type := mkChat {
  chat_id : Z;
  chat_timestamp : string;
  chat_user_input : string;
  chat_generated_code : string }.

(** The preferences dictionary: [temperature] is a float or [None]. *)
Record Preferences : Type := mkPrefs {
  temperature : option float;
  speed : Z;
  favorite_language : string }.

Record PrefRow : Type := mkPrefRow {
  pref_id : Z;
  pref_values : Preferences }.

Record TenantDB : Type := mkTenant {
  chat_history : option (list ChatRow);
  user_preferences : option (list PrefRow) }.

(** [openable path]: whether sqlite3 can create a file at [path] (its
    directory exists and the name is valid). *)
Record World : Type := mkWorld {
  openable : string -> bool;
  users : list UserRow;
  tenants : gmap string TenantDB }.

Definition set_users (us : list UserRow) (w : World) : World :=
  mkWorld (openable w) us (tenants w).

Definition set_tenant (path : string) (db : TenantDB) (w : World) : World :=
  mkWorld (openable w) (users w) (<[path := db]> (tenants w)).

Definition empty_db : TenantDB := mkTenant None None.

Definition user_db_path (username : string) : string :=
  "user_databases/" +:+ username +:+ ".sqlite".

(** [sqlite3.connect(path)]: opens the file, creating an empty database
    when there is none. *)
Definition sqlite3_connect (path : string) (w : World) : Res TenantDB * World :=
  match tenants w !! path with
  | Some db => (Ok db, w)
  | None =>
      if openable w path
      then (Ok empty_db, set_tenant path empty_db w)
      else (Raise (mkExc OperationalError "unable to open database file"), w)
  end.

(** The id an [INTEGER PRIMARY KEY AUTOINCREMENT] column gives a new row;
    the program deletes no row. *)
Definition next_id (ids : list Z) : Z := foldr Z.max 0%Z ids + 1.

(** What a REAL column keeps of a bound float. *)
Definition bind_real (x : option float) : option float :=
  match x with
  | Some f => if F64.is_nan f then None else Some f
  | None => None
  end.

Definition fits_int64 (n : Z) : bool :=
  ((- 2 ^ 63 <=? n) && (n <? 2 ^ 63))%Z.

Definition no_such_table {A : Type} (table : string) : Res A :=
  Raise (mkExc OperationalError ("no such table: " +:+ table)).

Definition default_preferences : Preferences :=
  mkPrefs (Some 0.7%float) 5 "python".

(** [create_user_db] *)
Definition create_user_db (username : string) (w : World) : Res unit * World :=
  let user_db_path := user_db_path username in
  match sqlite3_connect user_db_path w with
  | (Raise e, w1) => (Raise e, w1)
  | (Ok db, w1) =>
      (* CREATE TABLE IF NOT EXISTS chat_history, user_preferences *)
      let chats := default [] (chat_history db) in
      let prefs := default [] (user_preferences db) in
      (* INSERT INTO user_preferences ... VALUES (0.7, 5, 'python') *)
      let row := mkPrefRow (next_id (pref_id <$> prefs)) default_preferences in
      (Ok (), set_tenant user_db_path (mkTenant (Some chats) (Some (prefs ++ [row]))) w1)
  end.

(** [save_chat_history]; [now] is the formatted [datetime.now()]. *)
Definition save_chat_history (username user_input generated_code now : string)
    (w : World) : Res unit * World :=
  let user_db_path := user_db_path username in
  match sqlite3_connect user_db_path w with
  | (Raise e, w1) => (Raise e, w1)
  | (Ok db, w1) =>
      match chat_history db with
      | None => (no_such_table "chat_history", w1)
      | Some chats =>
          let row := mkChat (next_id (chat_id <$> chats)) now user_input generated_code in
          (Ok (), set_tenant user_db_path
                    (mkTenant (Some (chats ++ [row])) (user_preferences db)) w1)
      end
  end.

(** [ORDER BY timestamp DESC]: TEXT values compare byte by byte.  SQL leaves
    the order of rows with equal timestamps open; this sort keeps them in
    the order of the table. *)
Fixpoint insert_desc (r : ChatRow) (l : list ChatRow) : list ChatRow :=
  match l with
  | [] => [r]
  | x :: l' =>
      if String.ltb (chat_timestamp r) (chat_timestamp x)
      then x :: insert_desc r l'
      else r :: l
  end.

Definition order_by_timestamp_desc (rows : list ChatRow) : list ChatRow :=
  foldr insert_desc [] rows.

(** [load_chat_history]: the tuples [(timestamp, user_input, generated_code)].
    The file is opened only when [os.path.exists] finds it. *)
Definition load_chat_history (username : string) (w : World)
    : Res (list (string * string * string)) :=
  match tenants w !! user_db_path username with
  | None => Ok []
  | Some db =>
      match chat_history db with
      | None => no_such_table "chat_history"
      | Some chats =>
          Ok ((fun r => (chat_timestamp r, chat_user_input r, chat_generated_code r))
                <$> take 10 (order_by_timestamp_desc chats))
      end
  end.

(** [get_user_preferences] *)
Definition get_user_preferences (username : string) (w : World) : Res Preferences :=
  match tenants w !! user_db_path username with
  | None => Ok default_preferences
  | Some db =>
      match user_preferences db with
      | None => no_such_table "user_preferences"
      | Some [] => Ok default_preferences
      | Some (result :: _) => Ok (pref_values result)
      end
  end.

(** [update_user_preferences]: [UPDATE ... WHERE id = 1]. *)
Definition update_user_preferences (username : string) (preferences : Preferences)
    (w : World) : Res unit * World :=
  let user_db_path := user_db_path username in
  match sqlite3_connect user_db_path w with
  | (Raise e, w1) => (Raise e, w1)
  | (Ok db, w1) =>
      match user_preferences db with
      | None => (no_such_table "user_preferences", w1)
      | Some prefs =>
          if fits_int64 (speed preferences) then
            let stored := mkPrefs (bind_real (temperature preferences))
                            (speed preferences) (favorite_language preferences) in
            let prefs' := (fun r => if bool_decide (pref_id r = 1%Z)
                                    then mkPrefRow (pref_id r) stored else r) <$> prefs in
            (Ok (), set_tenant user_db_path (mkTenant (chat_history db) (Some prefs')) w1)
          else
            (Raise (mkExc OverflowError "Python int too large to convert to SQLite INTEGER"), w1)
      end
  end.

Section credentials.

(** bcrypt: [hashpw password salt] is
    [bcrypt.hashpw(password.encode(), salt).decode()] for the salt
    [bcrypt.gensalt()] returned, and [checkpw password hashed] is
    [bcrypt.checkpw(password.encode(), hashed.encode())]. *)
Variable hashpw : string -> string -> Res string.
Variable checkpw : string -> string -> Res bool.

Definition hash_password (password salt : string) : Res string :=
  hashpw password salt.

Definition verify_password (password hashed_password : string) : Res bool :=
  checkpw password hashed_password.

(** The handlers of [register_user]: [except sqlite3.IntegrityError], then
    [except Exception]; anything else propagates. *)
Definition register_handlers (e : PyExc) : Res (bool * string) :=
  match exc_class e with
  | IntegrityError => Ok (false, "Username already exists.")
  | c => if is_Exception c then Ok (false, "Error: " +:+ exc_msg e) else Raise e
  end.

(** [register_user]; [salt] is what [bcrypt.gensalt()] returns and [now] the
    formatted [datetime.now()]. *)
Definition register_user (username password salt now : string) (w : World)
    : Res (bool * string) * World :=
  match hash_password password salt with
  | Raise e => (register_handlers e, w)
  | Ok hashed_password =>
      (* INSERT INTO users: username is UNIQUE *)
      if bool_decide (username ∈ user_username <$> users w)
      then (register_handlers
              (mkExc IntegrityError "UNIQUE constraint failed: users.username"), w)
      else
        let row := mkUser (next_id (user_id <$> users w)) username hashed_password now in
        let w1 := set_users (users w ++ [row]) w in   (* conn.commit() *)
        match create_user_db username w1 with
        | (Ok _, w2) => (Ok (true, "Registration successful!"), w2)
        | (Raise e, w2) => (register_handlers e, w2)
        end
  end.

(** [authenticate_user] *)
Definition authenticate_user (username password : string) (w : World)
    : Res (bool * string) :=
  (* SELECT password FROM users WHERE username = ?; fetchone() *)
  let result := user_password <$>
                  List.find (fun r => bool_decide (user_username r = username)) (users w) in
  match result with
  | Some hashed =>
      ok ← verify_password password hashed;
      if (ok : bool) then Ok (true, "Login successful!")
      else Ok (false, "Incorrect password.")
  | None => Ok (false, "Username not found.")
  end.

End credentials.

End Store.

(** ** The session and its callbacks (lines 216-258, 703-779, 952-1027,
       1067-1093)

    [st.session_state] is a record of the keys the callbacks below read or
    write; every key is set by [init_session_state], [init_callback_handlers]
    or [initialize_q_table] before a callback runs.  The keys no callback
    here touches ([dark_mode], the [*_clicked] flags, the voice and text-area
    buffers) are left out.  The values of the input widgets are arguments of
    the callbacks. *)

Module App.

#[local] Set Warnings "-inexact-float".

Record SessionState : Type := mkSession {
  chat_history : list string;
  generated_code : string;
  temperature : option float;
  speed : Z;
  input_text_buffer : string;
  feedback_submitted : bool;
  feedback_score : Z;
  last_action_idx : nat;
  code_language : string;
  auto_submit : bool;
  authenticated : bool;
  username : string;
  login_error : string;
  register_error : string;
  session_id : string;
  needs_rerun : bool;
  Q_table : list float }.

Definition set_chat_history (v : list string) (s : SessionState) : SessionState :=
  mkSession v (generated_code s) (temperature s) (speed s)
    (input_text_buffer s) (feedback_submitted s) (feedback_score s)
    (last_action_idx s) (code_language s) (auto_submit s) (authenticated s)
    (username s) (login_error s) (register_error s) (session_id s)
    (needs_rerun s) (Q_table s).

Definition set_generated_code (v : string) (s : SessionState) : SessionState :=
  mkSession (chat_history s) v (temperature s) (speed s)
    (input_text_buffer s) (feedback_submitted s) (feedback_score s)
    (last_action_idx s) (code_language s) (auto_submit s) (authenticated s)
    (username s) (login_error s) (register_error s) (session_id s)
    (needs_rerun s) (Q_table s).

Definition set_temperature (v : option float) (s : SessionState) : SessionState :=
  mkSession (chat_history s) (generated_code s) v (speed s)
    (input_text_buffer s) (feedback_submitted s) (feedback_score s)
    (last_action_idx s) (code_language s) (auto_submit s) (authenticated s)
    (username s) (login_error s) (register_error s) (session_id s)
    (needs_rerun s) (Q_table s).

Definition set_speed (v : Z) (s : SessionState) : SessionState :=
  mkSession (chat_history s) (generated_code s) (temperature s) v
    (input_text_buffer s) (feedback_submitted s) (feedback_score s)
    (last_action_idx s) (code_language s) (auto_submit s) (authenticated s)
    (username s) (login_error s) (register_error s) (session_id s)
    (needs_rerun s) (Q_table s).

Definition set_feedback_submitted (v : bool) (s : SessionState) : SessionState :=
  mkSession (chat_history s) (generated_code s) (temperature s) (speed s)
    (input_text_buffer s) v (feedback_score s) (last_action_idx s)
    (code_language s) (auto_submit s) (authenticated s) (username s)
    (login_error s) (register_error s) (session_id s) (needs_rerun s)
    (Q_table s).

Definition set_feedback_score (v : Z) (s : SessionState) : SessionState :=
  mkSession (chat_history s) (generated_code s) (temperature s) (speed s)
    (input_text_buffer s) (feedback_submitted s) v (last_action_idx s)
    (code_language s) (auto_submit s) (authenticated s) (username s)
    (login_error s) (register_error s) (session_id s) (needs_rerun s)
    (Q_table s).

Definition set_last_action_idx (v : nat) (s : SessionState) : SessionState :=
  mkSession (chat_history s) (generated_code s) (temperature s) (speed s)
    (input_text_buffer s) (feedback_submitted s) (feedback_score s) v
    (code_language s) (auto_submit s) (authenticated s) (username s)
    (login_error s) (register_error s) (session_id s) (needs_rerun s)
    (Q_table s).

Definition set_code_language (v : string) (s : SessionState) : SessionState :=
  mkSession (chat_history s) (generated_code s) (temperature s) (speed s)
    (input_text_buffer s) (feedback_submitted s) (feedback_score s)
    (last_action_idx s) v (auto_submit s) (authenticated s) (username s)
    (login_error s) (register_error s) (session_id s) (needs_rerun s)
    (Q_table s).

Definition set_auto_submit (v : bool) (s : SessionState) : SessionState :=
  mkSession (chat_history s) (generated_code s) (temperature s) (speed s)
    (input_text_buffer s) (feedback_submitted s) (feedback_score s)
    (last_action_idx s) (code_language s) v (authenticated s) (username s)
    (login_error s) (register_error s) (session_id s) (needs_rerun s)
    (Q_table s).

Definition set_authenticated (v : bool) (s : SessionState) : SessionState :=
  mkSession (chat_history s) (generated_code s) (temperature s) (speed s)
    (input_text_buffer s) (feedback_submitted s) (feedback_score s)
    (last_action_idx s) (code_language s) (auto_submit s) v (username s)
    (login_error s) (register_error s) (session_id s) (needs_rerun s)
    (Q_table s).

Definition set_username (v : string) (s : SessionState) : SessionState :=
  mkSession (chat_history s) (generated_code s) (temperature s) (speed s)
    (input_text_buffer s) (feedback_submitted s) (feedback_score s)
    (last_action_idx s) (code_language s) (auto_submit s) (authenticated s)
    v (login_error s) (register_error s) (session_id s) (needs_rerun s)
    (Q_table s).

Definition set_login_error (v : string) (s : SessionState) : SessionState :=
  mkSession (chat_history s) (generated_code s) (temperature s) (speed s)
    (input_text_buffer s) (feedback_submitted s) (feedback_score s)
    (last_action_idx s) (code_language s) (auto_submit s) (authenticated s)
    (username s) v (register_error s) (session_id s) (needs_rerun s)
    (Q_table s).

Definition set_register_error (v : string) (s : SessionState) : SessionState :=
  mkSession (chat_history s) (generated_code s) (temperature s) (speed s)
    (input_text_buffer s) (feedback_submitted s) (feedback_score s)
    (last_action_idx s) (code_language s) (auto_submit s) (authenticated s)
    (username s) (login_error s) v (session_id s) (needs_rerun s)
    (Q_table s).

Definition set_needs_rerun (v : bool) (s : SessionState) : SessionState :=
  mkSession (chat_history s) (generated_code s) (temperature s) (speed s)
    (input_text_buffer s) (feedback_submitted s) (feedback_score s)
    (last_action_idx s) (code_language s) (auto_submit s) (authenticated s)
    (username s) (login_error s) (register_error s) (session_id s) v
    (Q_table s).

Definition set_Q_table (v : list float) (s : SessionState) : SessionState :=
  mkSession (chat_history s) (generated_code s) (temperature s) (speed s)
    (input_text_buffer s) (feedback_submitted s) (feedback_score s)
    (last_action_idx s) (code_language s) (auto_submit s) (authenticated s)
    (username s) (login_error s) (register_error s) (session_id s)
    (needs_rerun s) v.

(** [init_session_state], [init_callback_handlers] and [initialize_q_table]
    on a session that holds nothing but its [session_id]. *)
Definition initial_session (session_id : string) : SessionState :=
  mkSession [] "" (Some 0.7%float) 5 "" false 0 0 "python" false false "" "" ""
    session_id false Bandit.initial_Q_table.

Definition nl : string := String (ascii_of_nat 10) "".

(** The two entries of the displayed history; [indent] is the indentation
    of the literal in the source (12 spaces in [login_callback], 24 in
    [display_main_app]). *)
Definition user_entry (indent timestamp user_input : string) : string :=
  nl +:+ indent +:+ "<div style='background-color: #3B3B3B; " +:+ nl +:+
  indent +:+ "     padding: 10px; border-radius: 5px; margin: 5px 0;'>" +:+ nl +:+
  indent +:+ "    <strong>You:</strong> <small>(" +:+ timestamp +:+
  ")</small><br>" +:+ user_input +:+ nl +:+
  indent +:+ "</div>" +:+ nl +:+ indent.

Definition code_entry (indent timestamp generated_code : string) : string :=
  nl +:+ indent +:+ "<div style='background-color: #2D2D2D; " +:+ nl +:+
  indent +:+ "     padding: 10px; border-radius: 5px; margin: 5px 0;'>" +:+ nl +:+
  indent +:+ "    <strong>Coderzz.AI:</strong> <small>(" +:+ timestamp +:+
  ")</small><br>" +:+ nl +:+
  indent +:+ "    <pre><code>" +:+ generated_code +:+ "</code></pre>" +:+ nl +:+
  indent +:+ "</div>" +:+ nl +:+ indent.

Definition indent12 : string := "            ".
Definition indent24 : string := indent12 +:+ indent12.

(** What a callback leaves behind: its result, the session and the stores,
    and the messages it showed with [st.error]. *)
Record Run : Type := mkRun {
  run_result : Res unit;
  run_session : SessionState;
  run_world : Store.World;
  run_errors : list string }.

Section callbacks.

Variable hashpw : string -> string -> Res string.
Variable checkpw : string -> string -> Res bool.

(** [login_callback] *)
Definition login_callback (login_username login_password : string)
    (s : SessionState) (w : Store.World) : Run :=
  match Store.authenticate_user checkpw login_username login_password w with
  | Raise e => mkRun (Raise e) s w []
  | Ok (true, _) =>
      let s1 := set_login_error ""
                  (set_username login_username (set_authenticated true s)) in
      match Store.get_user_preferences login_username w with
      | Raise e => mkRun (Raise e) s1 w []
      | Ok preferences =>
          let s2 := set_code_language (Store.favorite_language preferences)
                      (set_speed (Store.speed preferences)
                         (set_temperature (Store.temperature preferences) s1)) in
          match Store.load_chat_history login_username w with
          | Raise e => mkRun (Raise e) s2 w []
          | Ok history =>
              let entries :=
                concat ((fun '(timestamp, user_input, generated_code) =>
                           [ user_entry indent12 timestamp user_input;
                             code_entry indent12 timestamp generated_code ])
                          <$> history) in
              mkRun (Ok ()) (set_chat_history entries s2) w []
          end
      end
  | Ok (false, message) => mkRun (Ok ()) (set_login_error message s) w []
  end.

(** [register_callback]; [salt] and [now] are what [bcrypt.gensalt()] and
    [datetime.now()] give [register_user]. *)
Definition register_callback
    (register_username register_password register_confirm_password : string)
    (salt now : string) (s : SessionState) (w : Store.World) : Run :=
  if negb (String.eqb register_password register_confirm_password)
  then mkRun (Ok ()) (set_register_error "Passwords do not match." s) w []
  else if (String.length register_password <? 6)%nat
  then mkRun (Ok ())
         (set_register_error "Password must be at least 6 characters long." s) w []
  else
    match Store.register_user hashpw register_username register_password salt now w with
    | (Raise e, w1) => mkRun (Raise e) s w1 []
    | (Ok (true, _), w1) =>
        mkRun (Ok ())
          (set_register_error ""
             (set_username register_username (set_authenticated true s))) w1 []
    | (Ok (false, message), w1) =>
        mkRun (Ok ()) (set_register_error message s) w1 []
    end.

End callbacks.

(** [logout_callback]: the preferences are saved, every key but
    [session_id] is deleted and the three initialisers run again. *)
Definition logout_callback (s : SessionState) (w : Store.World) : Run :=
  let saved :=
    if authenticated s && negb (String.eqb (username s) "")
    then Store.update_user_preferences (username s)
           (Store.mkPrefs (temperature s) (speed s) (code_language s)) w
    else (Ok (), w) in
  match saved with
  | (Raise e, w1) => mkRun (Raise e) s w1 []
  | (Ok _, w1) => mkRun (Ok ()) (initial_session (session_id s)) w1 []
  end.

(** The feedback buttons. *)
Inductive Feedback : Type := Poor | Neutral | Good | Excellent.

Definition reward (f : Feedback) : float :=
  match f with
  | Poor => (-1)%float
  | Neutral => 0%float
  | Good => 1%float
  | Excellent => 2%float
  end.

Definition score_change (f : Feedback) : Z :=
  match f with
  | Poor => (-1)%Z
  | Neutral => 0%Z
  | Good => 1%Z
  | Excellent => 2%Z
  end.

(** One click on a feedback button (lines 1071-1093). *)
Definition feedback_clicked (f : Feedback) (s : SessionState) : Res unit * SessionState :=
  let s1 := set_feedback_score (feedback_score s + score_change f) s in
  match Bandit.update_Q (Q_table s1) (last_action_idx s1) (reward f)
          Bandit.default_learning_rate Bandit.default_discount_factor with
  | Raise e => (Raise e, s1)
  | Ok Q' => (Ok (), set_feedback_submitted true (set_Q_table Q' s1))
  end.

(** The request sent to the generation API and what comes back. *)
Record Request : Type := mkRequest {
  req_model : string;
  req_prompt : string;
  req_stream : bool;
  req_temperature : option float }.

(** [response.json().get("response", "").strip()] either raises (the body is
    not JSON, is not an object, or the value is not a string) or finds the
    key absent or bound to a string. *)
Inductive ResponseField : Type :=
| FieldRaises (message : string)
| FieldAbsent
| FieldStr (text : string).

(** [requests.post] raises (a timeout, a connection error; [message] is
    [str(e)]) or returns a response. *)
Inductive Reply : Type :=
| PostRaises (message : string)
| Response (status_code : Z) (text : string) (field : ResponseField).

Inductive InputMethod : Type := Text | Voice | Image | Document.

Definition fence : string := "```".

(** Lines 987-992: the text kept of the response. *)
Definition extract_code (response : string) : Res string :=
  let generated_code := Text.py_strip response in
  if Text.py_in fence generated_code then
    match Text.py_split fence generated_code !! 1%nat with
    | Some block => Ok (fence +:+ block +:+ fence)
    | None => Raise (mkExc IndexError "list index out of range")
    end
  else Ok generated_code.

(** [str(n)] for an integer. *)
Definition str_of_Z (n : Z) : string :=
  match n with
  | Z0 => "0"
  | Zpos p => DecimalString.NilEmpty.string_of_uint (Pos.to_uint p)
  | Zneg p => "-" +:+ DecimalString.NilEmpty.string_of_uint (Pos.to_uint p)
  end.

(** Lines 955-960: the text of the request, from the text area or from the
    buffer the other input methods fill. *)
Definition chosen_input (input_method : InputMethod) (text_input : string)
    (s : SessionState) : string :=
  match input_method with
  | Text => if negb (String.eqb text_input "") then text_input
            else input_text_buffer s
  | _ => input_text_buffer s
  end.

(** Lines 968-981: the JSON body posted for a template and a request text. *)
Definition prompt_request (code_language : string) (temperature : option float)
    (template user_input : string) : Request :=
  let prompt := Text.py_format template user_input in
  mkRequest "coderzz.ai"
    ("Generate " +:+ code_language +:+ " code for: " +:+ prompt +:+
     ". Only return code with proper formatting and comments. Do not include explanations outside of code comments.")
    false temperature.

(** The body of [if st.button("Generate Code") or auto_submit] (lines
    952-1027).  [text_input] is the text area of the Text input method; [u]
    and [c] are the two random draws of [get_action]; [post] is the
    generation API; [now] is the formatted [datetime.now()].  The test
    ["code_language" not in st.session_state] is false: the key is always
    set. *)
Definition generate_clicked (input_method : InputMethod) (text_input : string)
    (u : float) (c : nat) (post : Request -> Reply) (now : string)
    (s : SessionState) (w : Store.World) : Run :=
  let s0 := set_auto_submit false s in
  let user_input := chosen_input input_method text_input s0 in
  if String.eqb user_input "" then mkRun (Ok ()) s0 w []
  else
    match Bandit.get_action (Q_table s0) Bandit.default_epsilon u c with
    | Raise e => mkRun (Raise e) s0 w []
    | Ok action_idx =>
        let s1 := set_last_action_idx action_idx s0 in
        match Bandit.actions !! action_idx with
        | None => mkRun (Raise (mkExc IndexError "list index out of range")) s1 w []
        | Some template =>
            (* except Exception as e: st.error(...); then needs_rerun = True *)
            let failed (message : string) (s' : SessionState) (w' : Store.World) :=
              mkRun (Ok ()) (set_needs_rerun true s') w'
                ["Error generating code: " +:+ message] in
            match post (prompt_request (code_language s1) (temperature s1)
                          template user_input) with
            | PostRaises message => failed message s1 w
            | Response status_code text field =>
                if (status_code =? 200)%Z then
                  match field with
                  | FieldRaises message => failed message s1 w
                  | (FieldAbsent | FieldStr _) as f =>
                      let response := match f with FieldStr t => t | _ => "" end in
                      match extract_code response with
                      | Raise e => failed (exc_msg e) s1 w
                      | Ok generated_code =>
                          let s2 := set_generated_code generated_code s1 in
                          let s3 :=
                            set_chat_history
                              (chat_history s2 ++
                               [ user_entry indent24 now user_input;
                                 code_entry indent24 now generated_code ]) s2 in
                          if authenticated s3 then
                            match Store.save_chat_history (username s3) user_input
                                    generated_code now w with
                            | (Raise e, w1) => failed (exc_msg e) s3 w1
                            | (Ok _, w1) => mkRun (Ok ()) (set_needs_rerun true s3) w1 []
                            end
                          else mkRun (Ok ()) (set_needs_rerun true s3) w []
                      end
                  end
                else
                  mkRun (Ok ()) (set_needs_rerun true s1) w
                    ["Error: " +:+ str_of_Z status_code +:+ " - " +:+ text]
            end
        end
    end.

(** A generation that fails: the request raises, the status is not 200, or
    the body cannot be read. *)
Definition generation_failed (r : Reply) : bool :=
  match r with
  | PostRaises _ => true
  | Response status_code _ field =>
      negb (status_code =? 200)%Z ||
      match field with FieldRaises _ => true | _ => false end
  end.

End App.

(** ** The execution helper (lines 282-310)

    What the interpreter does with the code is given: [exec] under the two
    redirections wrote [written_stdout] and [written_stderr] and then
    returned or raised.  Runs that do not end are not covered. *)

Module Exec.

(** How [exec(code_to_execute, {}, local_namespace)] ended.  For a raised
    exception [e], [cls] is its class and [str_e] what [str(e)] gives: a
    class of the executed code may define a [__str__] that raises. *)
Inductive Ending : Type :=
| Returned
| Raised (cls : ExcClass) (str_e : Res string).

Record Execution : Type := mkExecution {
  written_stdout : string;
  written_stderr : string;
  ending : Ending }.

(** [execute_python_code]: the tuple
    [(stdout_output, stderr_output, execution_successful)], or the exception
    that leaves the function. *)
Definition execute_python_code (run : Execution) : Res (string * string * bool) :=
  match ending run with
  | Returned => Ok (written_stdout run, written_stderr run, true)
  | Raised cls str_e =>
      if is_Exception cls then
        (* print(f"Error: {str(e)}", file=stderr_buffer) *)
        message ← str_e;
        Ok (written_stdout run,
            written_stderr run +:+ "Error: " +:+ message +:+ App.nl,
            false)
      else Raise (mkExc cls (match str_e with Ok m => m | Raise _ => "" end))
  end.

End Exec.

(** ** The states the callbacks reach

    A state is the session with the stores.  Between two runs of the script
    one callback runs, or a widget writes keys of the session other than
    [authenticated] and [username] (the sliders, the feedback buttons, the
    input buffers, the rerun flags). *)

Module Flow.

Section steps.

Variable hashpw : string -> string -> Res string.
Variable checkpw : string -> string -> Res bool.

Definition State : Type := App.SessionState * Store.World.

Definition after (r : App.Run) : State := (App.run_session r, App.run_world r).




End steps.

End Flow.

(** ** The language guess and the cleaning of the code to run (lines
       688-700 and 1047-1051) *)

Module Code.

(** [c.lower()] on the characters below 256: the letters A-Z and the
    capital letters of Latin-1 (192-222 without the multiplication sign
    215) move up by 32. *)
Definition lower_char (c : ascii) : ascii :=
  let n := nat_of_ascii c in
  if ((65 <=? n) && (n <=? 90) ||
      (192 <=? n) && (n <=? 222) && negb (n =? 215))%nat
  then ascii_of_nat (n + 32)
  else c.

(** [s.lower()] *)
Definition py_lower (s : string) : string :=
  Text.str (lower_char <$> Text.chars s).

(** [detect_language] *)
Definition detect_language (code : string) : string :=
  let code := py_lower code in
  if Text.py_in "def " code || Text.py_in "import " code || Text.py_in "print(" code
  then "python"
  else if Text.py_in "function" code || Text.py_in "var " code ||
          Text.py_in "const " code || Text.py_in "let " code ||
          Text.py_in "console.log" code
  then "javascript"
  else if Text.py_in "public class" code || Text.py_in "void main" code ||
          Text.py_in "System.out.println" code
  then "java"
  else if Text.py_in "cout <<" code || Text.py_in "#include" code ||
          Text.py_in "int main" code
  then "cpp"
  else "python".

(** [l[i]] on a list. *)
Definition item {A : Type} (l : list A) (i : nat) : Res A :=
  match l !! i with
  | Some x => Ok x
  | None => Raise (mkExc IndexError "list index out of range")
  end.

(** Lines 1047-1051: the code handed to [execute_python_code]. *)
Definition clean_code (code_to_run : string) : Res string :=
  if Text.py_in "```python" code_to_run then
    after ← item (Text.py_split "```python" code_to_run) 1;
    item (Text.py_split "```" after) 0
  else if Text.py_in "```" code_to_run then
    after ← item (Text.py_split "```" code_to_run) 1;
    item (Text.py_split "```" after) 0
  else Ok code_to_run.

End Code.

(** ** The start-up of the credential database (lines 22-77)

    The file [user_db.sqlite] holds no table [users], a table of an older
    version (the columns [id], [username], [password] and no
    [created_at]), or the table of this version; a table [users_old] may be
    left from an earlier start.  sqlite3 runs each schema statement at once
    and opens a transaction at the first INSERT; a connection that is
    dropped without [commit] loses the rows inserted since. *)

Module Startup.

Record OldRow : Type := mkOld {
  old_id : Z;
  old_username : string;
  old_password : string }.

Inductive UsersTable : Type :=
| NoTable
| OlderTable (rows : list OldRow)
| CurrentTable (rows : list Store.UserRow).

Record CredentialFile : Type := mkFile {
  users_table : UsersTable;
  users_old : option (list OldRow) }.

(** The INSERT of one copied row: [id] is the primary key and [username]
    is UNIQUE. *)
Definition insert_copied (current_time : string) (r : OldRow)
    (rows : list Store.UserRow) : Res (list Store.UserRow) :=
  if bool_decide (old_id r ∈ Store.user_id <$> rows)
  then Raise (mkExc IntegrityError "UNIQUE constraint failed: users.id")
  else if bool_decide (old_username r ∈ Store.user_username <$> rows)
  then Raise (mkExc IntegrityError "UNIQUE constraint failed: users.username")
  else Ok (rows ++ [Store.mkUser (old_id r) (old_username r) (old_password r)
                      current_time]).

(** The loop of lines 67-71. *)
Fixpoint copy_rows (current_time : string) (users_data : list OldRow)
    (rows : list Store.UserRow) : Res (list Store.UserRow) :=
  match users_data with
  | [] => Ok rows
  | r :: rest =>
      rows' ← insert_copied current_time r rows;
      copy_rows current_time rest rows'
  end.

(** [init_db]; [current_time] is the formatted [datetime.now()]. *)
Definition init_db (current_time : string) (f : CredentialFile)
    : Res unit * CredentialFile :=
  match users_table f with
  | NoTable => (Ok (), mkFile (CurrentTable []) (users_old f))
  | CurrentTable _ => (Ok (), f)
  | OlderTable users_data =>
      match users_old f with
      | Some _ =>
          (* ALTER TABLE users RENAME TO users_old *)
          (Raise (mkExc OperationalError
                    "there is already another table or index with this name: users_old"),
           f)
      | None =>
          match copy_rows current_time users_data [] with
          | Ok rows => (Ok (), mkFile (CurrentTable rows) None)
          | Raise e => (Raise e, mkFile (CurrentTable []) (Some users_data))
          end
      end
  end.

End Startup.

(** ** The keys of the session (lines 216-272, 321-323 and 771-779)

    Here [st.session_state] is the dictionary itself: a key may be missing,
    and the three initialisers set a key only when it is. *)

Module Keys.

#[local] Set Warnings "-inexact-float".

(** The values the program stores under its keys. *)
Inductive PyVal : Type :=
| VNone
| VBool (b : bool)
| VInt (n : Z)
| VFloat (x : float)
| VStr (s : string)
| VList (l : list string)
| VArray (a : list float).

(** [if key not in st.session_state: st.session_state[key] = value] *)
Definition init_key (d : gmap string PyVal) (kv : string * PyVal)
    : gmap string PyVal :=
  match d !! kv.1 with
  | Some _ => d
  | None => <[kv.1 := kv.2]> d
  end.

(** The keys and values of [init_session_state], in its order; [new_id] is
    [str(uuid.uuid4())]. *)
Definition session_defaults (new_id : string) : list (string * PyVal) :=
  [ ("chat_history", VList []);
    ("generated_code", VStr "");
    ("temperature", VFloat 0.7%float);
    ("speed", VInt 5);
    ("user_input_buffer", VStr "");
    ("feedback_submitted", VBool false);
    ("selected_optimization", VNone);
    ("recognized_text", VStr "");
    ("input_text_buffer", VStr "");
    ("should_update_textarea", VBool false);
    ("feedback_score", VInt 0);
    ("last_action_idx", VInt 0);
    ("code_language", VStr "python");
    ("dark_mode", VBool true);
    ("auto_submit", VBool false);
    ("authenticated", VBool false);
    ("username", VStr "");
    ("login_error", VStr "");
    ("register_error", VStr "");
    ("session_id", VStr new_id) ].

Definition callback_defaults : list (string * PyVal) :=
  [ ("python_clicked", VBool false);
    ("javascript_clicked", VBool false);
    ("java_clicked", VBool false);
    ("cpp_clicked", VBool false);
    ("needs_rerun", VBool false) ].

Definition q_table_defaults : list (string * PyVal) :=
  [ ("Q_table", VArray Bandit.initial_Q_table) ].

Definition init_session_state (new_id : string) (d : gmap string PyVal)
    : gmap string PyVal :=
  foldl init_key d (session_defaults new_id).

Definition init_callback_handlers (d : gmap string PyVal) : gmap string PyVal :=
  foldl init_key d callback_defaults.

Definition initialize_q_table (d : gmap string PyVal) : gmap string PyVal :=
  foldl init_key d q_table_defaults.

(** The three calls that open [main] (lines 787-789) and close
    [logout_callback] (lines 777-779). *)
Definition initialise (new_id : string) (d : gmap string PyVal)
    : gmap string PyVal :=
  initialize_q_table (init_callback_handlers (init_session_state new_id d)).

(** Lines 771-779 of [logout_callback]: every key but [session_id] is
    deleted, then the initialisers run. *)
Definition reset_session (new_id : string) (d : gmap string PyVal)
    : gmap string PyVal :=
  initialise new_id (filter (fun kv => kv.1 = "session_id") d).

(** The record of [App] read off the dictionary. *)
Definition as_list (v : PyVal) : option (list string) :=
  match v with VList l => Some l | _ => None end.
Definition as_str (v : PyVal) : option string :=
  match v with VStr s => Some s | _ => None end.
Definition as_bool (v : PyVal) : option bool :=
  match v with VBool b => Some b | _ => None end.
Definition as_int (v : PyVal) : option Z :=
  match v with VInt n => Some n | _ => None end.
Definition as_index (v : PyVal) : option nat :=
  match v with VInt n => if (0 <=? n)%Z then Some (Z.to_nat n) else None | _ => None end.
Definition as_temperature (v : PyVal) : option (option float) :=
  match v with VFloat x => Some (Some x) | VNone => Some None | _ => None end.
Definition as_array (v : PyVal) : option (list float) :=
  match v with VArray a => Some a | _ => None end.

Definition typed (d : gmap string PyVal) : option App.SessionState :=
  chat_history ← d !! "chat_history" ≫= as_list;
  generated_code ← d !! "generated_code" ≫= as_str;
  temperature ← d !! "temperature" ≫= as_temperature;
  speed ← d !! "speed" ≫= as_int;
  input_text_buffer ← d !! "input_text_buffer" ≫= as_str;
  feedback_submitted ← d !! "feedback_submitted" ≫= as_bool;
  feedback_score ← d !! "feedback_score" ≫= as_int;
  last_action_idx ← d !! "last_action_idx" ≫= as_index;
  code_language ← d !! "code_language" ≫= as_str;
  auto_submit ← d !! "auto_submit" ≫= as_bool;
  authenticated ← d !! "authenticated" ≫= as_bool;
  username ← d !! "username" ≫= as_str;
  login_error ← d !! "login_error" ≫= as_str;
  register_error ← d !! "register_error" ≫= as_str;
  session_id ← d !! "session_id" ≫= as_str;
  needs_rerun ← d !! "needs_rerun" ≫= as_bool;
  Q_table ← d !! "Q_table" ≫= as_array;
  Some (App.mkSession chat_history generated_code temperature speed
          input_text_buffer feedback_submitted feedback_score last_action_idx
          code_language auto_submit authenticated username login_error
          register_error session_id needs_rerun Q_table).

End Keys.

(** ** The page around the callbacks (lines 679-686, 877-891, 919-960,
       1042-1065 and 810-813) *)

Module Page.

Definition set_input_text_buffer (v : string) (s : App.SessionState)
    : App.SessionState :=
  App.mkSession (App.chat_history s) (App.generated_code s) (App.temperature s)
    (App.speed s) v (App.feedback_submitted s) (App.feedback_score s)
    (App.last_action_idx s) (App.code_language s) (App.auto_submit s)
    (App.authenticated s) (App.username s) (App.login_error s)
    (App.register_error s) (App.session_id s) (App.needs_rerun s) (App.Q_table s).

(** The session with the key [should_update_textarea], which the record of
    [App] leaves out. *)
Record PageState : Type := mkPage {
  session : App.SessionState;
  should_update_textarea : bool }.

(** [update_input_buffer] *)
Definition update_input_buffer (text : string) (prefix : string) (p : PageState)
    : PageState :=
  if negb (String.eqb text "") then
    mkPage
      (App.set_auto_submit true
         (App.set_needs_rerun true
            (set_input_text_buffer (prefix +:+ text) (session p))))
      true
  else p.

(** What the input widgets hold when the script runs.  The text area holds
    its text; the voice button was clicked or not, and [recognize_speech]
    returned a text or [None]; an uploader holds a file or not, and
    [process_image] or [process_document] returned a text or [None]. *)
Inductive InputWidget : Type :=
| TextArea (text_input : string)
| VoiceButton (clicked : option (option string))
| ImageUploader (uploaded : option (option string))
| DocumentUploader (uploaded : option (option string)).

Definition input_method (i : InputWidget) : App.InputMethod :=
  match i with
  | TextArea _ => App.Text
  | VoiceButton _ => App.Voice
  | ImageUploader _ => App.Image
  | DocumentUploader _ => App.Document
  end.

Definition text_input (i : InputWidget) : string :=
  match i with TextArea t => t | _ => "" end.

(** Lines 919-949: the branch of the chosen input method. *)
Definition input_stage (i : InputWidget) (p : PageState) : PageState :=
  match i with
  | TextArea _ =>
      if should_update_textarea p then mkPage (session p) false else p
  | VoiceButton (Some (Some text)) =>
      update_input_buffer text "Generate code for: " p
  | ImageUploader (Some (Some text)) | DocumentUploader (Some (Some text)) =>
      update_input_buffer text "" p
  | _ => p
  end.

(** Lines 951-1027: [if st.button("Generate Code") or auto_submit]. *)
Definition submit_stage (clicked : bool) (i : InputWidget)
    (u : float) (c : nat) (post : App.Request -> App.Reply) (now : string)
    (s : App.SessionState) (w : Store.World) : App.Run :=
  if clicked || App.auto_submit s
  then App.generate_clicked (input_method i) (text_input i) u c post now s w
  else App.mkRun (Ok ()) s w [].

(** Lines 810-813 of [main]: the session, and whether [st.rerun()] is
    called. *)
Definition rerun_stage (s : App.SessionState) : App.SessionState * bool :=
  if App.needs_rerun s then (App.set_needs_rerun false s, true) else (s, false).

(** The sidebar (lines 877-891). *)
Definition codes_generated (s : App.SessionState) : nat :=
  length (App.chat_history s) / 2.

Definition clear_history_clicked (s : App.SessionState) : App.SessionState :=
  App.set_needs_rerun true (App.set_chat_history [] s).

(** [reversed(chat_history[-10:])] *)
Definition sidebar_messages (s : App.SessionState) : list string :=
  reverse (drop (length (App.chat_history s) - 10) (App.chat_history s)).



End Page.

(** * Properties *)

(** ** IEEE comparison facts used by the bandit proofs *)

Module F64Facts.
Import F64.

(** Case analysis on every integer comparison of the goal. *)
Ltac sf_cases :=
  change (Pos.compare_cont Eq) with Pos.compare;
  repeat match goal with
    | |- context [(?a ?= ?b)%Z] => destruct (Z.compare_spec a b)
    | |- context [(?a ?= ?b)%positive] => destruct (Pos.compare_spec a b)
    end;
  simpl; intros; subst; try discriminate; try reflexivity; try lia.

Lemma SFcompare_refl (x : spec_float) :
  x <> S754_nan -> SFcompare x x = Some Eq.
Proof.
  destruct x as [s|s| |s m e]; simpl; try congruence; intros _.
  - by destruct s.
  - destruct s; sf_cases.
Qed.

Lemma SFcompare_antisym (x y : spec_float) (c : comparison) :
  SFcompare x y = Some c -> SFcompare y x = Some (CompOpp c).
Proof.
  destruct x as [sx|sx| |sx mx ex], y as [sy|sy| |sy my ey]; simpl;
    try discriminate; try (intros [= <-]; by repeat case_match).
  intros [= <-]. f_equal. destruct sx, sy; simpl; sf_cases.
Qed.

Lemma SFcompare_lt_trans (x y z : spec_float) :
  SFcompare x y = Some Lt -> SFcompare y z = Some Lt -> SFcompare x z = Some Lt.
Proof.
  destruct x as [sx|sx| |sx mx ex], y as [sy|sy| |sy my ey],
    z as [sz|sz| |sz mz ez]; simpl; try discriminate;
    try (by repeat case_match).
  destruct sx, sy, sz; try discriminate; try done; sf_cases.
Qed.

Lemma SFcompare_eq_lt (x y z : spec_float) :
  SFcompare x y = Some Eq -> SFcompare y z = Some Lt -> SFcompare x z = Some Lt.
Proof.
  destruct x as [sx|sx| |sx mx ex], y as [sy|sy| |sy my ey],
    z as [sz|sz| |sz mz ez]; simpl; try discriminate;
    try (by repeat case_match).
  destruct sx, sy, sz; try discriminate; try done; sf_cases.
Qed.

Lemma ltb_true (x y : float) :
  PrimFloat.ltb x y = true <-> SFcompare (Prim2SF x) (Prim2SF y) = Some Lt.
Proof.
  rewrite FloatAxioms.ltb_spec. unfold SFltb.
  destruct (SFcompare _ _) as [[]|]; split; congruence.
Qed.

Lemma leb_true (x y : float) :
  PrimFloat.leb x y = true <->
  SFcompare (Prim2SF x) (Prim2SF y) = Some Lt \/
  SFcompare (Prim2SF x) (Prim2SF y) = Some Eq.
Proof.
  rewrite FloatAxioms.leb_spec. unfold SFleb.
  destruct (SFcompare _ _) as [[]|]; split; (congruence || tauto || intros [|]; congruence).
Qed.

Lemma is_nan_true (x : float) : is_nan x = true <-> Prim2SF x = S754_nan.
Proof.
  unfold is_nan, PrimFloat.is_nan. rewrite FloatAxioms.eqb_spec. unfold SFeqb. split.
  - destruct (Prim2SF x) as [s|s| |s m e] eqn:E; try done;
      (rewrite SFcompare_refl; [simpl|]; congruence).
  - by intros ->.
Qed.

Lemma is_nan_false (x : float) : is_nan x = false <-> Prim2SF x <> S754_nan.
Proof.
  rewrite <- is_nan_true. destruct (is_nan x); split; congruence.
Qed.

Lemma SFcompare_Some (x y : spec_float) :
  x <> S754_nan -> y <> S754_nan -> exists c, SFcompare x y = Some c.
Proof.
  destruct x as [sx|sx| |sx mx ex], y as [sy|sy| |sy my ey]; simpl;
    try congruence; eauto.
Qed.

Lemma SFcompare_not_nan (x y : spec_float) (c : comparison) :
  SFcompare x y = Some c -> x <> S754_nan /\ y <> S754_nan.
Proof. destruct x, y; simpl; try discriminate; split; congruence. Qed.

(** [not (x <= mp)] between two floats that are not NaN means [mp < x]. *)
Lemma not_leb_ltb (x mp : float) :
  PrimFloat.leb x mp = false -> is_nan x = false -> is_nan mp = false ->
  PrimFloat.ltb mp x = true.
Proof.
  rewrite !is_nan_false, ltb_true. intros Hle Hx Hmp.
  destruct (SFcompare_Some _ _ Hx Hmp) as [c Hc].
  rewrite (SFcompare_antisym _ _ _ Hc).
  destruct c; simpl; try done;
    (assert (PrimFloat.leb x mp = true) by (apply leb_true; tauto)); congruence.
Qed.

Lemma leb_ltb_trans (a b c : float) :
  PrimFloat.leb a b = true -> PrimFloat.ltb b c = true ->
  PrimFloat.ltb a c = true.
Proof.
  rewrite leb_true, !ltb_true. intros [H|H] Hbc.
  - eapply SFcompare_lt_trans; eauto.
  - eapply SFcompare_eq_lt; eauto.
Qed.

Lemma ltb_leb (a b : float) :
  PrimFloat.ltb a b = true -> PrimFloat.leb a b = true.
Proof. rewrite ltb_true, leb_true. tauto. Qed.

Lemma leb_refl (x : float) : is_nan x = false -> PrimFloat.leb x x = true.
Proof.
  rewrite is_nan_false, leb_true. intros H. right. by apply SFcompare_refl.
Qed.

Lemma leb_not_nan (x y : float) :
  PrimFloat.leb x y = true -> is_nan x = false /\ is_nan y = false.
Proof.
  rewrite leb_true, !is_nan_false.
  intros [H|H]; exact (SFcompare_not_nan _ _ _ H).
Qed.

Lemma ltb_neq (x m : float) :
  PrimFloat.ltb x m = true -> x <> m /\ PrimFloat.eqb x m = false.
Proof.
  rewrite ltb_true. intros H. split.
  - intros ->. destruct (SFcompare_not_nan _ _ _ H) as [Hn _].
    rewrite (SFcompare_refl _ Hn) in H. discriminate.
  - rewrite FloatAxioms.eqb_spec. unfold SFeqb. by rewrite H.
Qed.

Lemma below_neq (x m : float) :
  below x m -> x <> m /\ PrimFloat.eqb x m = false.
Proof.
  intros [H|[Hm Hx]]; [by apply ltb_neq|]. split.
  - intros ->. congruence.
  - rewrite FloatAxioms.eqb_spec. unfold SFeqb.
    apply is_nan_true in Hm. rewrite Hm. by destruct (Prim2SF x).
Qed.

(** A float that is at least zero is not strictly below zero. *)
Lemma nonneg_not_ltb (u : float) :
  PrimFloat.leb 0 u = true -> PrimFloat.ltb u 0 = false.
Proof.
  intros H. destruct (PrimFloat.ltb u 0) eqn:E; [|done].
  pose proof (leb_ltb_trans _ _ _ H E) as H0.
  apply ltb_true in H0. vm_compute in H0. discriminate.
Qed.

End F64Facts.

(** ** The bandit policy *)

Module BanditFacts.
Import F64 F64Facts Bandit.

#[local] Set Warnings "-inexact-float".
#[local] Open Scope float_scope.

Lemma np_maximum_nan (a b : float) : is_nan a = true -> np_maximum a b = a.
Proof. unfold np_maximum. intros ->. by rewrite orb_true_r. Qed.

Lemma fold_maximum_nan (l : list float) (a : float) :
  is_nan a = true -> fold_left np_maximum l a = a.
Proof.
  induction l as [|b l IH]; simpl; [done|].
  intros H. rewrite (np_maximum_nan _ _ H). by apply IH.
Qed.

(** The scan and the reduction agree: the scan stops on the first element
    that equals the reduction, every earlier element is strictly below it
    and no element is above it. *)
Lemma argmax_scan_spec (rest pre : list float) (mp : float) (best : nat) :
  pre !! best = Some mp ->
  is_nan mp = false ->
  (forall (j : nat) (x : float), (j < best)%nat -> pre !! j = Some x -> (x <? mp) = true) ->
  (forall (j : nat) (x : float), pre !! j = Some x -> (x <=? mp) = true) ->
  (pre ++ rest) !! argmax_scan mp best (length pre) rest
    = Some (fold_left np_maximum rest mp) /\
  (forall (j : nat) (x : float),
     (j < argmax_scan mp best (length pre) rest)%nat ->
     (pre ++ rest) !! j = Some x -> below x (fold_left np_maximum rest mp)) /\
  (forall (j : nat) (x : float),
     (pre ++ rest) !! j = Some x ->
     (x <=? fold_left np_maximum rest mp) = true \/
     is_nan (fold_left np_maximum rest mp) = true).
Proof.
  revert pre mp best.
  induction rest as [|x rest IH]; intros pre mp best Hbest Hmp Hlt Hle; simpl.
  - rewrite app_nil_r. split_and!; [done| |].
    + intros j y Hj Hy. left. eauto.
    + intros j y Hy. left. eauto.
  - pose proof (lookup_lt_Some _ _ _ Hbest) as Hb.
    assert (Happ : pre ++ x :: rest = (pre ++ [x]) ++ rest)
      by (by rewrite <- app_assoc).
    assert (Hlen : S (length pre) = length (pre ++ [x]))
      by (rewrite length_app; simpl; lia).
    destruct (x <=? mp) eqn:Hx; simpl.
    + (* the maximum is kept *)
      assert (Hm : np_maximum mp x = mp) by (unfold np_maximum; by rewrite Hx).
      rewrite Hm, Happ, Hlen. apply IH; [|done| |].
      * by rewrite lookup_app_l.
      * intros j y Hj. rewrite lookup_app_l by lia. eauto.
      * intros j y. rewrite lookup_app. destruct (pre !! j) eqn:E.
        -- intros [= <-]. eauto.
        -- destruct (j - length pre)%nat; simpl; [|done]. by intros [= <-].
    + (* the element replaces the maximum *)
      assert (Hm : np_maximum mp x = x)
        by (unfold np_maximum; by rewrite Hx, Hmp).
      rewrite Hm. destruct (is_nan x) eqn:Hn.
      * rewrite (fold_maximum_nan _ _ Hn). split_and!.
        -- by apply list_lookup_middle.
        -- intros j y Hj. rewrite lookup_app_l by done. intros Hy. right.
           split; [done|]. by destruct (leb_not_nan _ _ (Hle _ _ Hy)).
        -- intros. by right.
      * pose proof (not_leb_ltb _ _ Hx Hn Hmp) as Hltx.
        rewrite Happ, Hlen. apply IH; [|done| |].
        -- by apply list_lookup_middle.
        -- intros j y Hj. rewrite lookup_app_l by lia. intros Hy.
           eapply leb_ltb_trans; eauto.
        -- intros j y. rewrite lookup_app. destruct (pre !! j) eqn:E.
           ++ intros [= <-]. apply ltb_leb. eapply leb_ltb_trans; eauto.
           ++ destruct (j - length pre)%nat; simpl; [|done].
              intros [= <-]. by apply leb_refl.
Qed.

(** [np.argmax] returns the first index that holds [np.max]. *)
Lemma np_argmax_spec (V : list float) :
  V <> [] ->
  exists (i : nat) (m : float),
    np_argmax V = Ok i /\ np_max V = Ok m /\ V !! i = Some m /\
    (forall (j : nat) (x : float), (j < i)%nat -> V !! j = Some x -> below x m) /\
    (forall (j : nat) (x : float),
       V !! j = Some x -> (x <=? m) = true \/ is_nan m = true).
Proof.
  destruct V as [|x l]; [done|]. intros _. simpl.
  destruct (is_nan x) eqn:Hn.
  - exists 0%nat, x. rewrite (fold_maximum_nan _ _ Hn).
    split_and!; try done; [lia|]. intros. by right.
  - exists (argmax_scan x 0 1 l), (fold_left np_maximum l x).
    split; [done|]. split; [done|].
    apply (argmax_scan_spec l [x] x 0); [done|done|lia|].
    intros [|j] y; simpl; [|done]. intros [= <-]. by apply leb_refl.
Qed.

Lemma fold_maximum_zeros (n : nat) :
  fold_left np_maximum (replicate n 0) 0 = 0.
Proof. induction n as [|n IH]; simpl; [done|]. exact IH. Qed.

Lemma argmax_scan_zeros (n i : nat) :
  argmax_scan 0 0 i (replicate n 0) = 0%nat.
Proof. revert i. induction n as [|n IH]; intros i; simpl; [done|]. apply IH. Qed.

Lemma Prim2SF_zero : Prim2SF 0 = S754_zero false.
Proof. reflexivity. Qed.

Lemma neg_zero_dec (x : float) : x = (-0) \/ x <> (-0).
Proof.
  destruct (Prim2SF x) as [[]|s| |s m e] eqn:E;
    try (right; intros ->; vm_compute in E; discriminate).
  left. apply Prim2SF_inj. by rewrite E.
Qed.

Lemma add_zero_r (x : float) : x <> (-0) -> x + 0 = x.
Proof.
  intros Hx. apply Prim2SF_inj. rewrite add_spec, Prim2SF_zero.
  destruct (Prim2SF x) as [[]|s| |s m e] eqn:E; try done.
  destruct Hx. apply Prim2SF_inj. by rewrite E.
Qed.

Lemma sub_zero_r (x : float) : x - 0 = x.
Proof.
  apply Prim2SF_inj. rewrite sub_spec, Prim2SF_zero.
  by destruct (Prim2SF x) as [[]|s| |s m e].
Qed.

Lemma add_zero_l (z : float) : feq (0 + z) z.
Proof.
  destruct (Prim2SF z) as [s|s| |s m e] eqn:E.
  - right. rewrite FloatAxioms.eqb_spec, add_spec, Prim2SF_zero, E.
    by destruct s.
  - left. apply Prim2SF_inj. by rewrite add_spec, Prim2SF_zero, E.
  - left. apply Prim2SF_inj. by rewrite add_spec, Prim2SF_zero, E.
  - left. apply Prim2SF_inj. by rewrite add_spec, Prim2SF_zero, E.
Qed.

(** One update of a zero entry whose table has maximum zero. *)
Lemma zero_update (R : float) : feq (0 + 0.1 * (R + 0.9 * 0 - 0)) (0.1 * R).
Proof.
  destruct (neg_zero_dec R) as [->|HR].
  - right. reflexivity.
  - change (0.9 * 0) with 0. rewrite (add_zero_r _ HR), sub_zero_r.
    apply add_zero_l.
Qed.

(** C1.  [update_Q] with learning rate 0.1 and discount 0.9 replaces entry
    [i] by [V[i] + 0.1 * (r + 0.9 * max(V) - V[i])], where [max(V)] is
    [np.max] of the table before the update (an entry of the table that no
    entry exceeds), and leaves every other entry and the length as they
    were.  On an all-zero table the new entry is [0.1 * r] (as IEEE floats:
    equal, or the two zeros). *)
Theorem update_Q_rule (V : list float) (i : nat) (r vi : float) :
  V !! i = Some vi ->
  (exists (m : float) (V' : list float),
     np_max V = Ok m /\
     update_Q V i r 0.1 0.9 = Ok V' /\
     V' !! i = Some (vi + 0.1 * (r + 0.9 * m - vi)) /\
     (forall j : nat, j <> i -> V' !! j = V !! j) /\
     length V' = length V /\
     m ∈ V /\
     (forall x : float, x ∈ V -> (x <=? m) = true \/ is_nan m = true)) /\
  (V = replicate (length V) 0 ->
   exists (V' : list float) (x : float),
     update_Q V i r 0.1 0.9 = Ok V' /\ V' !! i = Some x /\ feq x (0.1 * r)).
Proof.
  intros Hi.
  assert (HV : V <> []) by (intros ->; done).
  destruct (np_argmax_spec V HV) as (k & m & _ & Hmax & Hk & _ & Hup).
  assert (Hupd : update_Q V i r 0.1 0.9
                 = Ok (<[i := vi + 0.1 * (r + 0.9 * m - vi)]> V))
    by (unfold update_Q; rewrite Hmax; simpl; by rewrite Hi).
  pose proof (lookup_lt_Some _ _ _ Hi) as Hlt.
  split.
  - exists m, (<[i := vi + 0.1 * (r + 0.9 * m - vi)]> V).
    split_and!; try done.
    + by rewrite list_lookup_insert_eq.
    + intros j Hj. by rewrite list_lookup_insert_ne.
    + by rewrite length_insert.
    + by eapply list_elem_of_lookup_2.
    + intros x [j Hj]%list_elem_of_lookup. eauto.
  - intros Hz. eexists _, _. split; [exact Hupd|].
    split; [by rewrite list_lookup_insert_eq|].
    assert (vi = 0) as ->.
    { rewrite Hz in Hi. by apply lookup_replicate in Hi as [-> _]. }
    assert (m = 0) as ->.
    { rewrite Hz in Hmax. destruct (length V); [done|]. simpl in Hmax.
      rewrite fold_maximum_zeros in Hmax. congruence. }
    apply zero_update.
Qed.

Lemma update_Q_rule_witness :
  [0; 0; 0; 0] !! 2%nat = Some 0 /\
  exists (V' : list float) (x : float),
    update_Q [0; 0; 0; 0] 2 2 0.1 0.9 = Ok V' /\ V' !! 2%nat = Some x /\
    feq x (0.1 * 2).
Proof.
  split; [reflexivity|].
  exact (proj2 (update_Q_rule [0; 0; 0; 0] 2 2 0 eq_refl) eq_refl).
Defined.

(** C2.  With [epsilon = 0] the action is the first index that holds
    [np.max] of the table, whatever the random generator returns: no lower
    index holds a float equal to the maximum.  On the table of four zeros
    the action is 0. *)
Theorem get_action_greedy (V : list float) (u : float) (c : nat) :
  V <> [] -> (0 <=? u) = true ->
  (exists (i : nat) (m : float),
     get_action V 0 u c = Ok i /\ np_max V = Ok m /\ V !! i = Some m /\
     forall (j : nat) (x : float),
       (j < i)%nat -> V !! j = Some x -> x <> m /\ (x =? m) = false) /\
  get_action [0; 0; 0; 0] 0 u c = Ok 0%nat.
Proof.
  intros HV Hu. unfold get_action. rewrite (nonneg_not_ltb _ Hu). split.
  - destruct (np_argmax_spec V HV) as (i & m & Hi & Hm & Him & Hlow & _).
    exists i, m. split_and!; try done.
    intros j x Hj Hx. apply below_neq. eauto.
  - reflexivity.
Qed.

Lemma get_action_greedy_witness :
  ([0; 1; 1; 0] <> [] /\ (0 <=? 0.5) = true) /\
  exists (i : nat) (m : float),
    get_action [0; 1; 1; 0] 0 0.5 3 = Ok i /\ np_max [0; 1; 1; 0] = Ok m /\
    [0; 1; 1; 0] !! i = Some m /\
    forall (j : nat) (x : float),
      (j < i)%nat -> [0; 1; 1; 0] !! j = Some x -> x <> m /\ (x =? m) = false.
Proof.
  assert (H1 : [0; 1; 1; 0] <> []) by discriminate.
  assert (H2 : (0 <=? 0.5) = true) by reflexivity.
  split; [by split|].
  exact (proj1 (get_action_greedy [0; 1; 1; 0] 0.5 3 H1 H2)).
Defined.

End BanditFacts.

(** ** String operations *)

Module TextFacts.
Import Text.

Section sequences.
Context {A : Type} `{EqDecision A}.
Implicit Types sep l : list A.

Lemma starts_with_app sep l : starts_with sep l = true <-> exists r, l = sep ++ r.
Proof.
  revert l. induction sep as [|a sep IH]; intros [|b l]; simpl.
  - split; eauto.
  - split; eauto.
  - split; [done|]. by intros [r ?].
  - rewrite andb_true_iff, bool_decide_eq_true, IH. split.
    + intros [-> [r ->]]. eauto.
    + intros [r [= -> ->]]. eauto.
Qed.

Lemma starts_with_drop sep l :
  starts_with sep l = true -> l = sep ++ drop (length sep) l.
Proof.
  intros [r ->]%starts_with_app. by rewrite drop_app_length.
Qed.

(** [find] returns the leftmost occurrence. *)
Lemma find_Some sep l (i : nat) :
  find sep l = Some i ->
  (i <= length l)%nat /\ starts_with sep (drop i l) = true /\
  forall j : nat, (j < i)%nat -> starts_with sep (drop j l) = false.
Proof.
  revert i. induction l as [|b l IH]; intros i; simpl find.
  - destruct (starts_with sep []) eqn:E; [|done]. intros [= <-].
    split_and!; [done|done|lia].
  - destruct (starts_with sep (b :: l)) eqn:E.
    + intros [= <-]. split_and!; [simpl; lia|done|lia].
    + destruct (find sep l) as [k|] eqn:Hk; [|done]. intros [= <-].
      destruct (IH k eq_refl) as (Hle & Hs & Hlow).
      split_and!; [simpl; lia|done|].
      intros [|j] Hj; [done|]. simpl. apply Hlow. lia.
Qed.

Lemma find_None sep l (j : nat) :
  find sep l = None -> starts_with sep (drop j l) = false.
Proof.
  revert j. induction l as [|b l IH]; intros j; simpl find.
  - destruct (starts_with sep []) eqn:E; [done|]. by rewrite drop_nil.
  - destruct (starts_with sep (b :: l)) eqn:E; [done|].
    destruct (find sep l) eqn:Hk; [done|]. intros _.
    destruct j as [|j]; [done|]. simpl. by apply IH.
Qed.

(** The text splits around the leftmost occurrence. *)
Lemma find_split sep l (i : nat) :
  find sep l = Some i -> l = take i l ++ sep ++ drop (i + length sep) l.
Proof.
  intros (_ & Hs & _)%find_Some.
  rewrite <- (take_drop i l) at 1. f_equal.
  rewrite (starts_with_drop _ _ Hs) at 1. by rewrite drop_drop.
Qed.

Lemma split_fuel_enough sep (n m : nat) l :
  sep <> [] -> (length l <= n)%nat -> (length l <= m)%nat ->
  split_fuel n sep l = split_fuel m sep l.
Proof.
  intros Hsep. revert m l.
  assert (Hnil : forall k : nat, split_fuel k sep [] = [[]]).
  { intros [|k]; simpl; [done|]. by destruct sep. }
  induction n as [|n IH]; intros m l Hn Hm.
  - destruct l; [|simpl in Hn; lia]. by rewrite !Hnil.
  - destruct m as [|m].
    { destruct l; [|simpl in Hm; lia]. by rewrite !Hnil. }
    simpl. destruct (find sep l) as [i|] eqn:Hi; [|done]. f_equal.
    assert (0 < length sep)%nat by (destruct sep; [done|simpl; lia]).
    apply IH; rewrite length_drop; lia.
Qed.

(** [split] cuts at the leftmost separator and splits what follows it. *)
Lemma split_cons sep l (i : nat) :
  sep <> [] -> find sep l = Some i ->
  split sep l = take i l :: split sep (drop (i + length sep) l).
Proof.
  intros Hsep Hi. unfold split.
  assert (0 < length sep)%nat by (destruct sep; [done|simpl; lia]).
  destruct (find_Some _ _ _ Hi) as (Hle & Hs & _).
  assert (0 < length l)%nat.
  { apply starts_with_drop in Hs.
    assert (length (drop i l) = length (sep ++ drop (length sep) (drop i l)))
      by congruence.
    rewrite length_app, !length_drop in *. lia. }
  destruct (length l) as [|n] eqn:Hn; [lia|]. simpl. rewrite Hi. f_equal.
  apply split_fuel_enough; [done| |done]. rewrite length_drop. lia.
Qed.

Lemma split_None sep l : find sep l = None -> split sep l = [l].
Proof. unfold split. intros Hn. destruct (length l); simpl; by rewrite ?Hn. Qed.

(** The second part of a split is the text between the first separator and
    the next one, or the end. *)
Lemma split_second sep l (i : nat) :
  sep <> [] -> find sep l = Some i ->
  split sep l !! 1%nat =
    Some (match find sep (drop (i + length sep) l) with
          | Some k => take k (drop (i + length sep) l)
          | None => drop (i + length sep) l
          end).
Proof.
  intros Hsep Hi. rewrite (split_cons _ _ _ Hsep Hi). simpl.
  destruct (find sep (drop (i + length sep) l)) as [k|] eqn:Hk.
  - by rewrite (split_cons _ _ _ Hsep Hk).
  - by rewrite (split_None _ _ Hk).
Qed.

End sequences.

Lemma str_app (a b : list ascii) : str (a ++ b) = str a +:+ str b.
Proof. induction a as [|c a IH]; simpl; [done|]. by rewrite IH. Qed.

Lemma chars_app (a b : string) : chars (a +:+ b) = chars a ++ chars b.
Proof. induction a as [|c a IH]; simpl; [done|]. by rewrite IH. Qed.

Lemma str_chars (s : string) : str (chars s) = s.
Proof. apply string_of_list_ascii_of_string. Qed.

Lemma chars_str (l : list ascii) : chars (str l) = l.
Proof. apply list_ascii_of_string_of_list_ascii. Qed.

Lemma length_str (l : list ascii) : String.length (str l) = length l.
Proof. induction l as [|c l IH]; simpl; [done|]. by rewrite IH. Qed.

End TextFacts.

(** ** The text kept of a response *)

Module ExtractFacts.
Import Text TextFacts App.

Lemma fence_chars : chars fence <> [].
Proof. done. Qed.

(** C3, as the code has it.  The text kept of a response is its stripped
    text when that holds no fence.  Otherwise the stripped text reads
    [pre ++ fence ++ block ++ rest], the first fence being the leftmost one
    and [block] running up to the next fence (or to the end), and the text
    kept is [block] between two fences: the delimiters are put back. *)
Theorem extract_code_spec (raw : string) :
  let t := py_strip raw in
  (py_in fence t = false /\ extract_code raw = Ok t) \/
  (py_in fence t = true /\
   exists pre block rest : string,
     t = pre +:+ fence +:+ block +:+ rest /\
     py_find fence t = Some (String.length pre) /\
     (rest = "" /\ py_find fence block = None \/
      py_find fence (block +:+ rest) = Some (String.length block)) /\
     extract_code raw = Ok (fence +:+ block +:+ fence)).
Proof.
  intros t. unfold extract_code. fold t.
  destruct (py_in fence t) eqn:Hin; [right|left; done].
  split; [done|].
  unfold py_in in Hin. apply bool_decide_eq_true in Hin as [i Hi].
  unfold py_find in Hi.
  pose proof (find_split _ _ _ Hi) as Hsplit.
  pose proof (split_second _ _ _ fence_chars Hi) as Hsnd.
  set (r := drop (i + length (chars fence)) (chars t)) in *.
  assert (Hlen : length (take i (chars t)) = i).
  { apply length_take_le. by destruct (find_Some _ _ _ Hi). }
  assert (Ht : forall b c : list ascii,
             r = b ++ c -> t = str (take i (chars t)) +:+ fence +:+ str b +:+ str c).
  { intros b c Hr.
    transitivity (str (take i (chars t) ++ chars fence ++ b ++ c)).
    - by rewrite <- Hr, <- Hsplit, str_chars.
    - by rewrite !str_app, str_chars. }
  unfold py_split. rewrite list_lookup_fmap, Hsnd.
  destruct (find (chars fence) r) as [k|] eqn:Hk.
  - exists (str (take i (chars t))), (str (take k r)), (str (drop k r)).
    split_and!; [|by rewrite length_str, Hlen| |done].
    + apply Ht. by rewrite take_drop.
    + right. unfold py_find.
      rewrite chars_app, !chars_str, take_drop, length_str, Hk. f_equal.
      symmetry. apply length_take_le. by destruct (find_Some _ _ _ Hk).
  - exists (str (take i (chars t))), (str r), "".
    split_and!; [|by rewrite length_str, Hlen| |done].
    + apply (Ht r []). by rewrite app_nil_r.
    + left. split; [done|]. unfold py_find. by rewrite chars_str.
Qed.

(** The claim as stated fails: the kept text carries the two fences. *)
Lemma extract_code_keeps_fences :
  extract_code "Here you go: ```print(1)``` enjoy" = Ok "```print(1)```" /\
  extract_code "Here you go: ```print(1)``` enjoy" <> Ok "print(1)".
Proof. split; [reflexivity|discriminate]. Qed.

End ExtractFacts.

(** ** A generation that fails *)

Module GenerateFacts.
Import App.

#[local] Set Warnings "-inexact-float".

(** C4, as the code has it.  When the generation fails, the value table,
    the displayed history, the kept code and every store are as before and
    one error message is shown; of the session only [auto_submit],
    [needs_rerun] and [last_action_idx] are written, and [last_action_idx]
    is the arm chosen for the failed request. *)
Theorem failed_generation_state (input_method : InputMethod) (text_input : string)
    (u : float) (c : nat) (post : Request -> Reply) (now : string)
    (s : SessionState) (w : Store.World) (a : nat) (template : string) :
  let user_input := chosen_input input_method text_input s in
  user_input <> "" ->
  Bandit.get_action (Q_table s) Bandit.default_epsilon u c = Ok a ->
  Bandit.actions !! a = Some template ->
  generation_failed
    (post (prompt_request (code_language s) (temperature s) template user_input))
    = true ->
  let r := generate_clicked input_method text_input u c post now s w in
  run_result r = Ok () /\
  run_session r
    = set_needs_rerun true (set_last_action_idx a (set_auto_submit false s)) /\
  Q_table (run_session r) = Q_table s /\
  chat_history (run_session r) = chat_history s /\
  generated_code (run_session r) = generated_code s /\
  last_action_idx (run_session r) = a /\
  run_world r = w /\
  length (run_errors r) = 1%nat.
Proof.
  intros user_input Hin Ha Ht Hfail r. subst r. unfold generate_clicked.
  change (chosen_input input_method text_input (set_auto_submit false s))
    with user_input.
  destruct (String.eqb_spec user_input "") as [|_]; [done|].
  cbn [Q_table set_auto_submit]. rewrite Ha. cbn beta iota. rewrite Ht.
  cbn [code_language temperature set_last_action_idx set_auto_submit].
  destruct (post _) as [message|status_code text field]; simpl in Hfail.
  - done.
  - destruct (status_code =? 200)%Z; simpl in Hfail; [|done].
    by destruct field.
Qed.

Definition sample_world : Store.World := Store.mkWorld (fun _ => true) [] ∅.

Lemma failed_generation_state_witness :
  let s := initial_session "sid" in
  let post := fun _ : Request => PostRaises "Read timed out." in
  let r := generate_clicked Text "add two numbers" 0.5 3 post
             "2025-01-01 10:00:00" s sample_world in
  Q_table (run_session r) = Q_table s /\
  chat_history (run_session r) = [] /\ run_world r = sample_world.
Proof.
  cbv zeta.
  destruct (failed_generation_state Text "add two numbers" 0.5 3
              (fun _ => PostRaises "Read timed out.") "2025-01-01 10:00:00"
              (initial_session "sid") sample_world 0
              "Generate basic code for: {}")
    as (_ & _ & HQ & Hc & _ & _ & Hw & _); try reflexivity; [discriminate|].
  split_and!; [exact HQ|exact Hc|exact Hw].
Defined.

(** The claim as stated fails on [last_action_idx]: a first generation
    (arm 0) rated Poor, then a generation that times out.  The failed
    request leaves arm 1 recorded in place of arm 0. *)
Lemma failed_generation_moves_last_action :
  let answer := fun _ : Request => Response 200 "" (FieldStr "print(1)") in
  let timeout := fun _ : Request => PostRaises "Read timed out." in
  let s1 := run_session (generate_clicked Text "add two numbers" 0.5 0 answer
                           "2025-01-01 10:00:00" (initial_session "sid") sample_world) in
  let s2 := snd (feedback_clicked Poor s1) in
  let r := generate_clicked Text "add two numbers" 0.5 0 timeout
             "2025-01-01 10:05:00" s2 sample_world in
  last_action_idx s2 = 0%nat /\
  run_errors r = ["Error generating code: Read timed out."] /\
  last_action_idx (run_session r) = 1%nat.
Proof. cbv zeta. split_and!; reflexivity. Qed.

End GenerateFacts.

(** ** The tenant stores *)

Module StoreFacts.
Import Store.

#[local] Set Warnings "-inexact-float".
#[local] Open Scope Z_scope.

(** The preference rows of a tenant file, when the file and the table exist. *)
Definition preference_rows (username : string) (w : World) : option (list PrefRow) :=
  db ← tenants w !! user_db_path username; user_preferences db.

(** The rows [n] calls of [create_user_db] insert into a new file. *)
Definition default_rows (n : nat) : list PrefRow :=
  (fun k : nat => mkPrefRow (Z.of_nat (S k)) default_preferences) <$> seq 0 n.

Lemma next_id_default_rows (n : nat) :
  next_id (pref_id <$> default_rows n) = Z.of_nat (S n).
Proof.
  unfold next_id, default_rows.
  assert (foldr Z.max 0 (pref_id <$> ((fun k : nat =>
            mkPrefRow (Z.of_nat (S k)) default_preferences) <$> seq 0 n))
          = Z.of_nat n); [|lia].
  induction n as [|n IH]; [done|].
  rewrite seq_S, !fmap_app, foldr_app. simpl.
  revert IH. generalize (seq 0 n). intros l.
  assert (Hmax : forall (l : list Z) (b : Z),
            0 <= b -> foldr Z.max b l = Z.max b (foldr Z.max 0 l)).
  { clear. induction l as [|x l IH]; intros b Hb; simpl; [lia|].
    rewrite IH by done. lia. }
  intros IH. rewrite Hmax by lia. lia.
Qed.

Lemma default_rows_S (n : nat) :
  default_rows (S n) = default_rows n ++ [mkPrefRow (Z.of_nat (S n)) default_preferences].
Proof. unfold default_rows. by rewrite seq_S, fmap_app. Qed.

Lemma tenants_set_tenant (path : string) (db : TenantDB) (w : World) :
  tenants (set_tenant path db w) !! path = Some db.
Proof. simpl. by rewrite lookup_insert_eq. Qed.

(** One more call of [create_user_db] on a file that holds [n] default rows
    inserts row [n + 1]. *)
Lemma create_user_db_again (username : string) (w : World) (n : nat) (chats : list ChatRow) :
  tenants w !! user_db_path username
    = Some (mkTenant (Some chats) (Some (default_rows n))) ->
  fst (create_user_db username w) = Ok () /\
  tenants (snd (create_user_db username w)) !! user_db_path username
    = Some (mkTenant (Some chats) (Some (default_rows (S n)))).
Proof.
  intros Hw. unfold create_user_db, sqlite3_connect. rewrite Hw. simpl.
  split; [done|]. rewrite lookup_insert_eq, next_id_default_rows.
  by rewrite default_rows_S.
Qed.

Lemma create_user_db_new (username : string) (w : World) :
  tenants w !! user_db_path username = None ->
  openable w (user_db_path username) = true ->
  fst (create_user_db username w) = Ok () /\
  tenants (snd (create_user_db username w)) !! user_db_path username
    = Some (mkTenant (Some []) (Some (default_rows 1))).
Proof.
  intros Hw Hopen. unfold create_user_db, sqlite3_connect. rewrite Hw, Hopen.
  simpl. split; [done|]. by rewrite lookup_insert_eq.
Qed.

(** [n] calls of [create_user_db] in a row. *)
Definition create_repeatedly (n : nat) (username : string) (w : World) : World :=
  Nat.iter n (fun w' => snd (create_user_db username w')) w.

(** C5, on the code.  The first call of [create_user_db] for a user seeds
    one row holding the defaults; every further call inserts one more
    default row, so that [n + 1] calls leave [n + 1] rows: creation is not a
    no-op on a store that exists. *)
Theorem create_user_db_adds_a_row (username : string) (w : World) (n : nat) :
  tenants w !! user_db_path username = None ->
  openable w (user_db_path username) = true ->
  preference_rows username (create_repeatedly (S n) username w)
    = Some (default_rows (S n)) /\
  length (default_rows (S n)) = S n /\
  (forall r : PrefRow, r ∈ default_rows (S n) -> pref_values r = default_preferences) /\
  get_user_preferences username (create_repeatedly (S n) username w)
    = Ok default_preferences.
Proof.
  intros Hw Hopen.
  assert (Hn : tenants (create_repeatedly (S n) username w) !! user_db_path username
               = Some (mkTenant (Some []) (Some (default_rows (S n))))).
  { induction n as [|n IH].
    - by apply create_user_db_new.
    - change (create_repeatedly (S (S n)) username w)
        with (snd (create_user_db username (create_repeatedly (S n) username w))).
      by apply create_user_db_again. }
  split_and!.
  - unfold preference_rows. by rewrite Hn.
  - unfold default_rows. by rewrite length_fmap, length_seq.
  - unfold default_rows. intros r Hr. apply list_elem_of_fmap in Hr as (k & -> & _).
    done.
  - unfold get_user_preferences. rewrite Hn. simpl. done.
Qed.

Definition clean_world : World := mkWorld (fun _ => true) [] ∅.

Lemma create_user_db_adds_a_row_witness :
  (tenants clean_world !! user_db_path "alice" = None /\
   openable clean_world (user_db_path "alice") = true) /\
  preference_rows "alice" (create_repeatedly 2 "alice" clean_world)
    = Some [ mkPrefRow 1 default_preferences; mkPrefRow 2 default_preferences ].
Proof.
  assert (H1 : tenants clean_world !! user_db_path "alice" = None) by reflexivity.
  assert (H2 : openable clean_world (user_db_path "alice") = true) by reflexivity.
  split; [by split|].
  exact (proj1 (create_user_db_adds_a_row "alice" clean_world 1 H1 H2)).
Defined.

(** A directory [user_databases] without subdirectories: a tenant file can
    be created when its path has no separator besides the one after
    [user_databases]. *)
Definition flat_directory (path : string) : bool :=
  bool_decide (length (Text.py_split "/" path) = 2%nat).

Definition flat_world : World := mkWorld flat_directory [] ∅.

(** A stand-in for bcrypt that verifies exactly the hashed password. *)
Definition plain_hashpw (password salt : string) : Res string :=
  Ok ("$2b$" +:+ password).

Definition plain_checkpw (password hashed : string) : Res bool :=
  Ok (String.eqb hashed ("$2b$" +:+ password)).

Section credentials.

Variable hashpw : string -> string -> Res string.
Variable checkpw : string -> string -> Res bool.

(** The hash verifies the password it was made from and no other. *)
Definition ideal_hash : Prop :=
  forall password salt hashed attempt : string,
    hashpw password salt = Ok hashed ->
    checkpw attempt hashed = Ok (bool_decide (password = attempt)).

Lemma find_username_None (username : string) (us : list UserRow) :
  username ∉ user_username <$> us ->
  List.find (fun r => bool_decide (user_username r = username)) us = None.
Proof.
  induction us as [|r us IH]; simpl; [done|].
  rewrite not_elem_of_cons. intros [Hne Hnot].
  rewrite bool_decide_eq_false_2 by done. by apply IH.
Qed.

Lemma find_username_new (username : string) (us : list UserRow) (row : UserRow) :
  username ∉ user_username <$> us -> user_username row = username ->
  List.find (fun r => bool_decide (user_username r = username)) (us ++ [row])
    = Some row.
Proof.
  intros Hnot Hrow. induction us as [|r us IH]; simpl.
  - by rewrite bool_decide_eq_true_2.
  - apply not_elem_of_cons in Hnot as [Hne Hnot].
    rewrite bool_decide_eq_false_2 by done. by apply IH.
Qed.

(** A user that no registration inserted is not found. *)
Lemma authenticate_unknown (username password : string) (w : World) :
  username ∉ user_username <$> users w ->
  authenticate_user checkpw username password w = Ok (false, "Username not found.").
Proof.
  intros Hnot. unfold authenticate_user.
  by rewrite (find_username_None _ _ Hnot).
Qed.

Lemma users_create_user_db (username : string) (w : World) :
  users (snd (create_user_db username w)) = users w.
Proof.
  unfold create_user_db, sqlite3_connect.
  destruct (tenants w !! _); [done|]. by destruct (openable w _).
Qed.

(** What a registration that reports success leaves behind. *)
Lemma register_user_success (username password salt now message : string)
    (w w' : World) :
  register_user hashpw username password salt now w = (Ok (true, message), w') ->
  exists hashed : string,
    hashpw password salt = Ok hashed /\
    (username ∉ user_username <$> users w) /\
    users w' = (users w ++
      [mkUser (next_id (user_id <$> users w)) username hashed now]) /\
    fst (create_user_db username
           (set_users (users w ++
              [mkUser (next_id (user_id <$> users w)) username hashed now]) w))
      = Ok ().
Proof.
  unfold register_user, hash_password.
  destruct (hashpw password salt) as [hashed|e] eqn:Hh.
  - case_bool_decide as Hin; [done|].
    destruct (create_user_db _ _) as [[[]|e] w2] eqn:Hc.
    + intros [= _ <-]. exists hashed.
      pose proof (users_create_user_db username
        (set_users (users w ++
           [mkUser (next_id (user_id <$> users w)) username hashed now]) w)) as Hu.
      rewrite Hc in Hu |- *. by split_and!.
    + unfold register_handlers. destruct (exc_class e); try done;
        destruct (is_Exception _); done.
  - unfold register_handlers. destruct (exc_class e); try done;
      destruct (is_Exception _); done.
Qed.

(** After a registration that succeeded, the same password logs in and any
    other is refused as incorrect. *)
Lemma authenticate_after_register
    (username password salt now message attempt : string) (w w' : World) :
  ideal_hash ->
  register_user hashpw username password salt now w = (Ok (true, message), w') ->
  authenticate_user checkpw username attempt w'
    = Ok (if bool_decide (password = attempt)
          then (true, "Login successful!")
          else (false, "Incorrect password.")).
Proof.
  intros Hideal (hashed & Hh & Hnot & Hus & _)%register_user_success.
  unfold authenticate_user, verify_password.
  rewrite Hus, (find_username_new _ _ _ Hnot) by done. simpl.
  rewrite (Hideal _ _ _ attempt Hh). simpl. by case_bool_decide.
Qed.

(** C6, on the code.  [register_user] commits the credential before it
    creates the tenant store.  When the store cannot be created (the user
    name is no valid file name) the registration reports an error, yet the
    credential stays and the user can log in. *)
Theorem register_failure_keeps_credential
    (username password salt now hashed : string) (w : World) :
  hashpw password salt = Ok hashed ->
  checkpw password hashed = Ok true ->
  username ∉ user_username <$> users w ->
  tenants w !! user_db_path username = None ->
  openable w (user_db_path username) = false ->
  fst (register_user hashpw username password salt now w)
    = Ok (false, "Error: unable to open database file") /\
  authenticate_user checkpw username password
      (snd (register_user hashpw username password salt now w))
    = Ok (true, "Login successful!") /\
  tenants (snd (register_user hashpw username password salt now w))
      !! user_db_path username = None.
Proof.
  intros Hh Hc Hnot Hw Hopen.
  unfold register_user, hash_password. rewrite Hh.
  rewrite bool_decide_eq_false_2 by done.
  unfold create_user_db, sqlite3_connect. simpl. rewrite Hw, Hopen. simpl.
  split_and!; [done| |done].
  unfold authenticate_user, verify_password. simpl.
  rewrite (find_username_new _ _ _ Hnot) by done. simpl. by rewrite Hc.
Qed.

End credentials.

Lemma plain_hash_ideal : ideal_hash plain_hashpw plain_checkpw.
Proof.
  intros password salt hashed attempt [= <-]. unfold plain_checkpw. f_equal.
  destruct (String.eqb_spec ("$2b$" +:+ password) ("$2b$" +:+ attempt)) as [H|H].
  - simplify_eq/=. by rewrite bool_decide_eq_true_2.
  - rewrite bool_decide_eq_false_2; [done|]. by intros ->.
Qed.

Lemma register_failure_keeps_credential_witness :
  fst (register_user plain_hashpw "a/b" "secret1" "salt" "2025-01-01 10:00:00" flat_world)
    = Ok (false, "Error: unable to open database file") /\
  authenticate_user plain_checkpw "a/b" "secret1"
      (snd (register_user plain_hashpw "a/b" "secret1" "salt"
              "2025-01-01 10:00:00" flat_world))
    = Ok (true, "Login successful!").
Proof.
  destruct (register_failure_keeps_credential plain_hashpw plain_checkpw
              "a/b" "secret1" "salt" "2025-01-01 10:00:00" "$2b$secret1" flat_world)
    as (H1 & H2 & _); try reflexivity.
  - apply not_elem_of_nil.
  - by split.
Defined.

(** *** Reading the chat history *)

(** [a] may stand before [b] in the result: its timestamp is not older. *)
Definition not_older (a b : ChatRow) : Prop :=
  String.leb (chat_timestamp b) (chat_timestamp a) = true.

Definition entry (r : ChatRow) : string * string * string :=
  (chat_timestamp r, chat_user_input r, chat_generated_code r).

Lemma ltb_false_leb (a b : string) : String.ltb a b = false -> String.leb b a = true.
Proof.
  unfold String.ltb, String.leb. rewrite (String.compare_antisym a b).
  by destruct (String.compare b a).
Qed.

Lemma ltb_true_leb (a b : string) : String.ltb a b = true -> String.leb a b = true.
Proof. unfold String.ltb, String.leb. by destruct (String.compare a b). Qed.

Lemma leb_trans (a b c : string) :
  String.leb a b = true -> String.leb b c = true -> String.leb a c = true.
Proof.
  intros H1%Is_true_true H2%Is_true_true. apply Is_true_true.
  change (String.le a c). by etrans.
Qed.

Lemma insert_desc_perm (r : ChatRow) (l : list ChatRow) : insert_desc r l ≡ₚ r :: l.
Proof.
  induction l as [|x l IH]; simpl; [done|].
  destruct (String.ltb _ _); [|done]. rewrite IH. apply Permutation_swap.
Qed.

Lemma insert_desc_sorted (r : ChatRow) (l : list ChatRow) :
  StronglySorted not_older l -> StronglySorted not_older (insert_desc r l).
Proof.
  induction 1 as [|x l Hs IH Hx]; simpl.
  - repeat constructor.
  - destruct (String.ltb _ _) eqn:E.
    + constructor; [done|]. rewrite insert_desc_perm.
      constructor; [|done]. by apply ltb_true_leb.
    + apply ltb_false_leb in E. constructor; [by constructor|].
      constructor; [done|]. eapply Forall_impl; [exact Hx|].
      intros y Hy. unfold not_older in *. by eapply leb_trans.
Qed.

Lemma order_by_timestamp_desc_perm (rows : list ChatRow) :
  order_by_timestamp_desc rows ≡ₚ rows.
Proof.
  induction rows as [|r rows IH]; simpl; [done|].
  by rewrite insert_desc_perm, IH.
Qed.

Lemma order_by_timestamp_desc_sorted (rows : list ChatRow) :
  StronglySorted not_older (order_by_timestamp_desc rows).
Proof.
  induction rows as [|r rows IH]; simpl; [constructor|].
  by apply insert_desc_sorted.
Qed.

(** C8.  Without a tenant file [load_chat_history] returns the empty list
    and no error.  With its table it returns the first ten (or all, when
    fewer) of the stored rows arranged so that no row stands before one with
    a later timestamp.  A file that lacks the table makes sqlite3 raise. *)
Theorem load_chat_history_recent (username : string) (w : World) :
  match tenants w !! user_db_path username with
  | None => load_chat_history username w = Ok []
  | Some db =>
      match chat_history db with
      | Some chats =>
          exists sorted : list ChatRow,
            sorted ≡ₚ chats /\
            StronglySorted not_older sorted /\
            load_chat_history username w = Ok (entry <$> take 10 sorted) /\
            length (take 10 sorted) = Nat.min 10 (length chats)
      | None =>
          load_chat_history username w = no_such_table "chat_history"
      end
  end.
Proof.
  unfold load_chat_history.
  destruct (tenants w !! user_db_path username) as [db|]; [|done].
  destruct (chat_history db) as [chats|]; [|done].
  exists (order_by_timestamp_desc chats). split_and!.
  - apply order_by_timestamp_desc_perm.
  - apply order_by_timestamp_desc_sorted.
  - done.
  - by rewrite length_take, (Permutation_length (order_by_timestamp_desc_perm chats)).
Qed.


(** *** Writing and reading the preferences *)



(** A store that cannot be created keeps no preferences: the update
    raises and the defaults are read. *)
Lemma preferences_without_store (username : string) (p : Preferences) (w : World) :
  tenants w !! user_db_path username = None ->
  openable w (user_db_path username) = false ->
  update_user_preferences username p w
    = (Raise (mkExc OperationalError "unable to open database file"), w) /\
  get_user_preferences username w = Ok default_preferences.
Proof.
  intros Hw Hopen.
  unfold update_user_preferences, get_user_preferences, sqlite3_connect.
  by rewrite Hw, Hopen.
Qed.


End StoreFacts.

(** ** The session callbacks *)

Module SessionFacts.
Import App.

#[local] Set Warnings "-inexact-float".
#[local] Open Scope Z_scope.

(** C10.  A registration whose two passwords differ, or whose password has
    fewer than six characters, only sets [register_error]: no credential
    and no tenant store is written and [authenticated] is as before. *)
Theorem register_callback_rejects (hashpw : string -> string -> Res string)
    (register_username register_password register_confirm_password : string)
    (salt now : string) (s : SessionState) (w : Store.World) :
  register_password <> register_confirm_password \/
    (String.length register_password < 6)%nat ->
  let r := register_callback hashpw register_username register_password
             register_confirm_password salt now s w in
  run_result r = Ok () /\
  run_world r = w /\
  run_session r = set_register_error (register_error (run_session r)) s /\
  register_error (run_session r) <> "" /\
  authenticated (run_session r) = authenticated s /\
  username (run_session r) = username s.
Proof.
  intros Hbad r. subst r. unfold register_callback.
  destruct (String.eqb_spec register_password register_confirm_password) as [Heq|Hne];
    simpl.
  - destruct Hbad as [Hne|Hshort]; [done|].
    apply Nat.ltb_lt in Hshort. rewrite Hshort. simpl. by split_and!.
  - by split_and!.
Qed.

Lemma register_callback_rejects_witness :
  ("secret1" <> "secret2" \/ (String.length "secret1" < 6)%nat) /\
  run_world (register_callback StoreFacts.plain_hashpw "alice" "secret1" "secret2"
               "salt" "2025-01-01 10:00:00" (initial_session "sid")
               StoreFacts.clean_world)
    = StoreFacts.clean_world.
Proof.
  assert (H : "secret1" <> "secret2" \/ (String.length "secret1" < 6)%nat)
    by (left; discriminate).
  split; [exact H|].
  exact (proj1 (proj2 (register_callback_rejects StoreFacts.plain_hashpw
                         "alice" "secret1" "secret2" "salt" "2025-01-01 10:00:00"
                         (initial_session "sid") StoreFacts.clean_world H))).
Defined.

Section logout.

Variable checkpw : string -> string -> Res bool.

(** The session after the sliders are set to 0.9 and 8. *)
Definition with_sliders (s : SessionState) : SessionState :=
  set_speed 8 (set_temperature (Some 0.9%float) s).


(** C7, on the code.  A user whose tenant store could not be created, and
    whose credential was kept all the same, logs in with the default
    preferences.  After the sliders are set to 0.9 and 8, [logout_callback]
    raises while saving them: the session stays as it was, nothing is
    stored, and the next login reads the defaults again. *)
Theorem logout_fails_without_store (login_username login_password : string)
    (s : SessionState) (w : Store.World) :
  login_username <> "" ->
  Store.authenticate_user checkpw login_username login_password w
    = Ok (true, "Login successful!") ->
  Store.tenants w !! Store.user_db_path login_username = None ->
  Store.openable w (Store.user_db_path login_username) = false ->
  let s1 := run_session (login_callback checkpw login_username login_password s w) in
  let out := logout_callback (with_sliders s1) w in
  authenticated s1 = true /\
  temperature s1 = Some 0.7%float /\ speed s1 = 5 /\
  run_result out
    = Raise (mkExc OperationalError "unable to open database file") /\
  run_session out = with_sliders s1 /\
  run_world out = w /\
  Store.get_user_preferences login_username (run_world out)
    = Ok Store.default_preferences.
Proof.
  intros Hname Hlogin Hw Hopen s1 out.
  destruct (StoreFacts.preferences_without_store login_username
              (Store.mkPrefs (Some 0.9%float) 8 "python") w Hw Hopen) as [_ Hget].
  assert (Hs1 : s1 = set_chat_history []
            (set_code_language "python"
               (set_speed 5
                  (set_temperature (Some 0.7%float)
                     (set_login_error ""
                        (set_username login_username (set_authenticated true s))))))).
  { subst s1. unfold login_callback. rewrite Hlogin, Hget.
    unfold Store.load_chat_history. by rewrite Hw. }
  assert (Hne : String.eqb login_username "" = false)
    by (by apply String.eqb_neq).
  subst out. rewrite Hs1. unfold logout_callback, with_sliders. simpl.
  rewrite Hne. simpl.
  destruct (StoreFacts.preferences_without_store login_username
              (Store.mkPrefs (Some 0.9%float) 8 "python") w Hw Hopen) as [Hup _].
  rewrite Hup. by split_and!.
Qed.

End logout.

(** The world after the registration of [a/b] failed. *)
Definition world_after_failed_registration : Store.World :=
  snd (Store.register_user StoreFacts.plain_hashpw "a/b" "secret1" "salt"
         "2025-01-01 10:00:00" StoreFacts.flat_world).

Lemma logout_fails_without_store_witness :
  let w := world_after_failed_registration in
  let s1 := run_session (login_callback StoreFacts.plain_checkpw "a/b" "secret1"
                           (initial_session "sid") w) in
  let out := logout_callback (with_sliders s1) w in
  authenticated s1 = true /\
  run_result out
    = Raise (mkExc OperationalError "unable to open database file") /\
  Store.get_user_preferences "a/b" (run_world out) = Ok Store.default_preferences.
Proof.
  cbv zeta.
  destruct (logout_fails_without_store StoreFacts.plain_checkpw "a/b" "secret1"
              (initial_session "sid") world_after_failed_registration)
    as (H1 & _ & _ & H2 & _ & _ & H3); try reflexivity; [discriminate|].
  by split_and!.
Defined.

End SessionFacts.

(** ** The execution helper *)

Module ExecFacts.
Import Exec.

(** What [execute_python_code] does catch.  A run that returns gives its
    two streams and [True].  A run that raises an exception deriving from
    [Exception], whose [str] returns [message], gives the streams with
    [Error: message] and a newline appended to the standard error, and
    [False]. *)
Lemma execute_python_code_catches (run : Execution) :
  match ending run with
  | Returned =>
      execute_python_code run = Ok (written_stdout run, written_stderr run, true)
  | Raised cls (Ok message) =>
      is_Exception cls = true ->
      execute_python_code run
        = Ok (written_stdout run,
              written_stderr run +:+ "Error: " +:+ message +:+ App.nl,
              false)
  | Raised cls (Raise e) =>
      is_Exception cls = true -> execute_python_code run = Raise e
  end.
Proof.
  unfold execute_python_code.
  destruct (ending run) as [|cls [message|e]]; [done| |]; by intros ->.
Qed.

(** C9, on the code.  The handler is [except Exception]: an exception of
    the executed code that does not derive from [Exception] ([SystemExit]
    from [sys.exit()], [KeyboardInterrupt]) is not caught.  It leaves
    [execute_python_code], which returns no tuple. *)
Theorem execute_python_code_lets_through (run : Execution) (cls : ExcClass)
    (message : string) :
  ending run = Raised cls (Ok message) ->
  is_Exception cls = false ->
  execute_python_code run = Raise (mkExc cls message) /\
  forall result : string * string * bool, execute_python_code run <> Ok result.
Proof.
  intros Hend Hcls. unfold execute_python_code. rewrite Hend, Hcls.
  split; [done|]. discriminate.
Qed.

(** The run of [import sys; sys.exit(1)]. *)
Lemma execute_python_code_lets_through_witness :
  execute_python_code (mkExecution "" "" (Raised SystemExit (Ok "1")))
    = Raise (mkExc SystemExit "1").
Proof.
  exact (proj1 (execute_python_code_lets_through
                  (mkExecution "" "" (Raised SystemExit (Ok "1")))
                  SystemExit "1" eq_refl eq_refl)).
Defined.

End ExecFacts.

(** ** An invariant of the reachable states *)

Module FlowFacts.
Import Store.

#[local] Open Scope Z_scope.









Section steps.

Variable hashpw : string -> string -> Res string.
Variable checkpw : string -> string -> Res bool.






End steps.

End FlowFacts.

(** ** Splitting: what the parts hold *)

Module SplitFacts.
Import Text TextFacts.

Section sequences.
Context {A : Type} `{EqDecision A}.
Implicit Types sep l : list A.

Lemma starts_with_app_l sep l r :
  starts_with sep l = true -> starts_with sep (l ++ r) = true.
Proof.
  intros [x ->]%starts_with_app. apply starts_with_app. exists (x ++ r).
  by rewrite app_assoc.
Qed.

Lemma starts_with_length sep l :
  starts_with sep l = true -> (length sep <= length l)%nat.
Proof. intros [x ->]%starts_with_app. rewrite length_app. lia. Qed.

(** The text before the leftmost separator holds no separator. *)
Lemma find_take_None sep l (i : nat) :
  sep <> [] -> find sep l = Some i -> find sep (take i l) = None.
Proof.
  intros Hsep Hi. destruct (find sep (take i l)) as [j|] eqn:Hj; [|done].
  exfalso. destruct (find_Some _ _ _ Hi) as (Hle & _ & Hmin).
  destruct (find_Some _ _ _ Hj) as (Hjle & Hs & _).
  assert (0 < length sep)%nat by (destruct sep; [done|simpl; lia]).
  pose proof (starts_with_length _ _ Hs) as Hlen.
  rewrite length_drop, length_take in Hlen.
  assert (Hji : (j < i)%nat) by lia.
  specialize (Hmin j Hji).
  rewrite <- (take_drop i l), drop_app_le in Hmin
    by (rewrite length_take; lia).
  by rewrite (starts_with_app_l _ _ _ Hs) in Hmin.
Qed.

(** A text that holds the separator holds each of its characters. *)
Lemma find_elem_of sep l (i : nat) (a : A) :
  find sep l = Some i -> a ∈ sep -> a ∈ l.
Proof.
  intros (_ & Hs & _)%find_Some Ha.
  apply starts_with_app in Hs as [r Hr].
  rewrite <- (take_drop i l), Hr. set_solver.
Qed.

(** The first part of a split. *)
Lemma split_first sep l :
  sep <> [] ->
  split sep l !! 0%nat =
    Some (match find sep l with Some i => take i l | None => l end).
Proof.
  intros Hsep. destruct (find sep l) as [i|] eqn:Hi.
  - by rewrite (split_cons _ _ _ Hsep Hi).
  - by rewrite (split_None _ _ Hi).
Qed.

(** A separator found in front of the text is the leftmost one. *)
Lemma find_at_head sep l : find sep (sep ++ l) = Some 0%nat.
Proof.
  assert (Hs : starts_with sep (sep ++ l) = true)
    by (apply starts_with_app; eauto).
  destruct (sep ++ l) eqn:E; simpl; by rewrite Hs.
Qed.

Lemma find_None_intro sep l :
  (forall j : nat, starts_with sep (drop j l) = false) -> find sep l = None.
Proof.
  intros Hno. destruct (find sep l) as [i|] eqn:Hi; [|done].
  destruct (find_Some _ _ _ Hi) as (_ & Hs & _). by rewrite Hno in Hs.
Qed.

End sequences.

Lemma py_in_false (sub s : string) : py_in sub s = false <-> py_find sub s = None.
Proof.
  unfold py_in. by destruct (py_find sub s) as [i|].
Qed.

Lemma py_in_true (sub s : string) :
  py_in sub s = true <-> exists i : nat, py_find sub s = Some i.
Proof. unfold py_in. by rewrite bool_decide_eq_true. Qed.

End SplitFacts.

(** ** The language guess and the code to run *)

Module CodeFacts.
Import Text TextFacts SplitFacts Code.

Lemma chars_nonempty (s : string) : s <> "" -> chars s <> [].
Proof. by destruct s. Qed.

Lemma fence_not_empty : chars "```" <> [].
Proof. done. Qed.

Lemma python_fence_not_empty : chars "```python" <> [].
Proof. done. Qed.

Lemma py_split_first_eq (sep s : string) :
  chars sep <> [] ->
  item (py_split sep s) 0
    = Ok (str (match find (chars sep) (chars s) with
               | Some i => take i (chars s)
               | None => chars s
               end)).
Proof.
  intros Hsep. unfold item, py_split.
  by rewrite list_lookup_fmap, (split_first _ _ Hsep).
Qed.

(** The first part of a split holds no separator. *)
Lemma py_split_first_clean (sep s : string) :
  sep <> "" ->
  exists r : string, item (py_split sep s) 0 = Ok r /\ py_in sep r = false.
Proof.
  intros Hsep%chars_nonempty. rewrite (py_split_first_eq _ _ Hsep).
  eexists. split; [done|]. apply py_in_false. unfold py_find.
  rewrite chars_str. destruct (find (chars sep) (chars s)) as [i|] eqn:Hi; [|done].
  by apply find_take_None.
Qed.

Lemma py_split_second_eq (sep s : string) (i : nat) :
  chars sep <> [] -> find (chars sep) (chars s) = Some i ->
  item (py_split sep s) 1
    = Ok (str (match find (chars sep) (drop (i + length (chars sep)) (chars s)) with
               | Some k => take k (drop (i + length (chars sep)) (chars s))
               | None => drop (i + length (chars sep)) (chars s)
               end)).
Proof.
  intros Hsep Hi. unfold item, py_split.
  by rewrite list_lookup_fmap, (split_second _ _ _ Hsep Hi).
Qed.

Lemma py_split_second (sep s : string) :
  sep <> "" -> py_in sep s = true ->
  exists after : string, item (py_split sep s) 1 = Ok after.
Proof.
  intros Hsep%chars_nonempty [i Hi]%py_in_true.
  rewrite (py_split_second_eq _ _ _ Hsep Hi). eauto.
Qed.

(** The code handed to [execute_python_code] is always defined and holds
    no fence. *)
Theorem clean_code_has_no_fence (code_to_run : string) :
  exists cleaned : string,
    clean_code code_to_run = Ok cleaned /\ py_in "```" cleaned = false.
Proof.
  unfold clean_code.
  destruct (py_in "```python" code_to_run) eqn:Hpy.
  - destruct (py_split_second "```python" code_to_run) as [after ->]; [done..|].
    simpl. by apply py_split_first_clean.
  - destruct (py_in "```" code_to_run) eqn:Hf; [|eauto].
    destruct (py_split_second "```" code_to_run) as [after ->]; [done..|].
    simpl. by apply py_split_first_clean.
Qed.

(** [clean_code] takes off the fences [extract_code] puts around a block,
    and the [python] tag with the first one. *)
Lemma clean_code_fenced (body : string) :
  py_find "```" (body +:+ "```") = Some (String.length body) ->
  clean_code ("```python" +:+ body +:+ "```") = Ok body /\
  (py_in "```python" ("```" +:+ body +:+ "```") = false ->
   clean_code ("```" +:+ body +:+ "```") = Ok body).
Proof.
  intros Hfind. unfold py_find in Hfind. rewrite chars_app in Hfind.
  assert (Hlen : String.length body = length (chars body)).
  { by rewrite <- (str_chars body) at 1; rewrite length_str. }
  rewrite Hlen in Hfind.
  assert (Hbody : find (chars "```") (chars body) = None).
  { pose proof (find_take_None _ _ _ fence_not_empty Hfind) as H.
    by rewrite take_app_length in H. }
  assert (Hfirst : item (py_split "```" (str (chars body ++ chars "```"))) 0 = Ok body).
  { rewrite (py_split_first_eq _ _ fence_not_empty), chars_str, Hfind.
    by rewrite take_app_length, str_chars. }
  assert (Hnopy : find (chars "```python") (chars body ++ chars "```") = None).
  { apply find_None_intro. intros j.
    destruct (starts_with (chars "```python") (drop j (chars body ++ chars "```")))
      eqn:Hs; [|done]. exfalso.
    destruct (find_Some _ _ _ Hfind) as (_ & _ & Hmin).
    pose proof (starts_with_length _ _ Hs) as Hl.
    rewrite length_drop, length_app in Hl. simpl in Hl.
    assert (Hj : (j < length (chars body))%nat) by lia.
    specialize (Hmin j Hj).
    apply starts_with_app in Hs as [r Hr]. rewrite Hr in Hmin. done. }
  split.
  - unfold clean_code.
    assert (H0 : find (chars "```python") (chars ("```python" +:+ body +:+ "```"))
                 = Some 0%nat) by (rewrite chars_app; apply find_at_head).
    assert (Hin : py_in "```python" ("```python" +:+ body +:+ "```") = true)
      by (apply py_in_true; eauto).
    rewrite Hin, (py_split_second_eq _ _ _ python_fence_not_empty H0).
    rewrite !chars_app, Nat.add_0_l, drop_app_length, Hnopy. exact Hfirst.
  - intros Hno. unfold clean_code. rewrite Hno.
    assert (H0 : find (chars "```") (chars ("```" +:+ body +:+ "```"))
                 = Some 0%nat) by (rewrite chars_app; apply find_at_head).
    assert (Hin : py_in "```" ("```" +:+ body +:+ "```") = true)
      by (apply py_in_true; eauto).
    rewrite Hin, (py_split_second_eq _ _ _ fence_not_empty H0).
    rewrite !chars_app, Nat.add_0_l, drop_app_length, Hfind, take_app_length.
    cbn [mbind Res_bind].
    by rewrite (py_split_first_eq _ _ fence_not_empty), chars_str, Hbody, str_chars.
Qed.

Lemma lower_char_not_S (c : ascii) : lower_char c <> "S"%char.
Proof. destruct c as [[] [] [] [] [] [] [] []]; vm_compute; discriminate. Qed.

Lemma lower_char_idemp (c : ascii) : lower_char (lower_char c) = lower_char c.
Proof. destruct c as [[] [] [] [] [] [] [] []]; reflexivity. Qed.

Lemma py_lower_idemp (s : string) : py_lower (py_lower s) = py_lower s.
Proof.
  unfold py_lower. rewrite chars_str, <- list_fmap_compose. f_equal.
  apply list_fmap_ext. intros _ c _. apply lower_char_idemp.
Qed.

(** [detect_language] lowers the code before it searches it for
    [System.out.println], whose capital S a lowered text cannot hold: that
    test never succeeds, and code is taken for Java only when it holds
    [public class] or [void main]. *)
Theorem detect_language_java (code : string) :
  py_in "System.out.println" (py_lower code) = false /\
  (detect_language code = "java" ->
   py_in "public class" (py_lower code) = true \/
   py_in "void main" (py_lower code) = true).
Proof.
  assert (Hdead : py_in "System.out.println" (py_lower code) = false).
  { apply py_in_false. unfold py_find.
    destruct (find _ _) as [i|] eqn:Hi; [|done]. exfalso.
    assert (HS : "S"%char ∈ chars (py_lower code)).
    { apply (find_elem_of _ _ _ _ Hi). set_solver. }
    unfold py_lower in HS. rewrite chars_str in HS.
    apply list_elem_of_fmap in HS as (c & Hc & _).
    by apply (lower_char_not_S c). }
  split; [done|]. unfold detect_language. rewrite Hdead.
  repeat (destruct (py_in _ (py_lower code)); simpl; try done; auto).
Qed.

(** The guess does not depend on the case of the letters, and is one of the
    four language names. *)
Theorem detect_language_ignores_case (code : string) :
  detect_language (py_lower code) = detect_language code /\
  detect_language code ∈ ["python"; "javascript"; "java"; "cpp"].
Proof.
  split.
  - unfold detect_language. by rewrite py_lower_idemp.
  - unfold detect_language.
    repeat (destruct (py_in _ (py_lower code)); simpl; [set_solver..|]);
      set_solver.
Qed.

End CodeFacts.

(** ** The start-up of the credential database *)

Module StartupFacts.
Import Startup.

(** A row of the older table as the migration copies it. *)
Definition copied (current_time : string) (r : OldRow) : Store.UserRow :=
  Store.mkUser (old_id r) (old_username r) (old_password r) current_time.

Lemma copy_rows_ok (current_time : string) (users_data : list OldRow)
    (rows : list Store.UserRow) :
  NoDup (old_id <$> users_data) ->
  NoDup (old_username <$> users_data) ->
  (forall r : OldRow, r ∈ users_data ->
     (old_id r ∉ Store.user_id <$> rows) /\
     (old_username r ∉ Store.user_username <$> rows)) ->
  copy_rows current_time users_data rows
    = Ok (rows ++ (copied current_time <$> users_data)).
Proof.
  revert rows. induction users_data as [|r rest IH]; intros rows Hid Hname Hnew.
  - simpl. by rewrite app_nil_r.
  - simpl in *. apply NoDup_cons in Hid as [Hid1 Hid], Hname as [Hname1 Hname].
    destruct (Hnew r) as [Hi Hn]; [by left|].
    unfold insert_copied.
    rewrite !bool_decide_eq_false_2 by done. simpl.
    rewrite IH; [by rewrite <- app_assoc|done|done|].
    intros r' Hr'. destruct (Hnew r') as [Hi' Hn']; [by right|].
    rewrite !fmap_app. simpl. split.
    + intros [?|Heq%list_elem_of_singleton]%elem_of_app; [done|].
      apply Hid1. rewrite <- Heq. by apply list_elem_of_fmap_2.
    + intros [?|Heq%list_elem_of_singleton]%elem_of_app; [done|].
      apply Hname1. rewrite <- Heq. by apply list_elem_of_fmap_2.
Qed.

Lemma copy_rows_inv (current_time : string) (users_data : list OldRow)
    (rows out : list Store.UserRow) :
  copy_rows current_time users_data rows = Ok out ->
  NoDup (old_id <$> users_data) /\
  NoDup (old_username <$> users_data) /\
  forall r : OldRow, r ∈ users_data ->
    (old_id r ∉ Store.user_id <$> rows) /\
    (old_username r ∉ Store.user_username <$> rows).
Proof.
  revert rows. induction users_data as [|r rest IH]; intros rows; simpl.
  - intros _. split_and!; [constructor|constructor|]. intros r Hr.
    by apply elem_of_nil in Hr.
  - unfold insert_copied at 1.
    case_bool_decide as Hi; [done|]. case_bool_decide as Hn; [done|]. simpl.
    intros (Hid & Hname & Hnew)%IH.
    assert (Hrest : forall r' : OldRow, r' ∈ rest ->
              old_id r' <> old_id r /\ old_username r' <> old_username r /\
              (old_id r' ∉ Store.user_id <$> rows) /\
              (old_username r' ∉ Store.user_username <$> rows)).
    { intros r' Hr'. destruct (Hnew r' Hr') as [H1 H2].
      rewrite fmap_app in H1. rewrite fmap_app in H2. simpl in H1, H2.
      rewrite not_elem_of_app, not_elem_of_cons in H1.
      rewrite not_elem_of_app, not_elem_of_cons in H2. tauto. }
    split_and!.
    + constructor; [|done]. intros (r' & Heq & Hr')%list_elem_of_fmap.
      destruct (Hrest r' Hr') as (H1 & _). congruence.
    + constructor; [|done]. intros (r' & Heq & Hr')%list_elem_of_fmap.
      destruct (Hrest r' Hr') as (_ & H1 & _). congruence.
    + intros r' [->|Hr']%elem_of_cons; [done|].
      destruct (Hrest r' Hr') as (_ & _ & H1 & H2). done.
Qed.

(** A start that succeeds settles the file: the table of this version is
    left as it is, and every later start succeeds and changes nothing. *)
Theorem init_db_settles (current_time : string) (f f' : CredentialFile) :
  init_db current_time f = (Ok (), f') ->
  (exists rows : list Store.UserRow, users_table f' = CurrentTable rows) /\
  (forall rows : list Store.UserRow, users_table f = CurrentTable rows -> f' = f) /\
  (forall later : string, init_db later f' = (Ok (), f')).
Proof.
  unfold init_db. destruct f as [[|users_data|rows] old]; simpl.
  - intros [= <-]. split_and!; [eauto|done|done].
  - destruct old as [kept|]; [done|].
    destruct (copy_rows current_time users_data []) as [rows|e]; [|done].
    intros [= <-]. split_and!; [eauto|done|done].
  - intros [= <-]. split_and!; [eauto|done|done].
Qed.

Lemma init_db_settles_witness :
  init_db "2025-01-01 10:00:00"
      (mkFile (OlderTable [mkOld 1 "alice" "$2b$x"]) None)
    = (Ok (), mkFile (CurrentTable
                        [Store.mkUser 1 "alice" "$2b$x" "2025-01-01 10:00:00"]) None) /\
  forall later : string,
    init_db later
        (mkFile (CurrentTable
                   [Store.mkUser 1 "alice" "$2b$x" "2025-01-01 10:00:00"]) None)
      = (Ok (), mkFile (CurrentTable
                          [Store.mkUser 1 "alice" "$2b$x" "2025-01-01 10:00:00"]) None).
Proof.
  split; [reflexivity|].
  exact (proj2 (proj2 (init_db_settles "2025-01-01 10:00:00"
                         (mkFile (OlderTable [mkOld 1 "alice" "$2b$x"]) None)
                         _ eq_refl))).
Defined.

(** The migration of an older table whose ids and user names are distinct
    keeps every row, in order, with its id, user name and password hash,
    stamps it with the time of the start and leaves no [users_old]. *)
Theorem init_db_migrates (current_time : string) (users_data : list OldRow) :
  NoDup (old_id <$> users_data) ->
  NoDup (old_username <$> users_data) ->
  init_db current_time (mkFile (OlderTable users_data) None)
    = (Ok (), mkFile (CurrentTable (copied current_time <$> users_data)) None).
Proof.
  intros Hid Hname. unfold init_db. simpl.
  rewrite (copy_rows_ok current_time users_data []); [done..|].
  intros r _. simpl. split; apply not_elem_of_nil.
Qed.

Lemma init_db_migrates_witness :
  (NoDup (old_id <$> [mkOld 1 "alice" "$2b$x"; mkOld 2 "bob" "$2b$y"]) /\
   NoDup (old_username <$> [mkOld 1 "alice" "$2b$x"; mkOld 2 "bob" "$2b$y"])) /\
  init_db "2025-01-01 10:00:00"
      (mkFile (OlderTable [mkOld 1 "alice" "$2b$x"; mkOld 2 "bob" "$2b$y"]) None)
    = (Ok (), mkFile (CurrentTable
                        [ Store.mkUser 1 "alice" "$2b$x" "2025-01-01 10:00:00";
                          Store.mkUser 2 "bob" "$2b$y" "2025-01-01 10:00:00" ]) None).
Proof.
  assert (H1 : NoDup (old_id <$> [mkOld 1 "alice" "$2b$x"; mkOld 2 "bob" "$2b$y"]))
    by (apply NoDup_cons; split; [|apply NoDup_singleton];
        by intros ?%list_elem_of_singleton).
  assert (H2 : NoDup (old_username <$> [mkOld 1 "alice" "$2b$x"; mkOld 2 "bob" "$2b$y"]))
    by (apply NoDup_cons; split; [|apply NoDup_singleton];
        by intros ?%list_elem_of_singleton).
  split; [by split|].
  exact (init_db_migrates "2025-01-01 10:00:00"
           [mkOld 1 "alice" "$2b$x"; mkOld 2 "bob" "$2b$y"] H1 H2).
Defined.

(** When two rows of the older table share an id or a user name the
    migration raises [IntegrityError] after the table was renamed and
    created anew: the new table stays empty, the old rows stay in
    [users_old], and the next start succeeds on the empty table. *)
Theorem init_db_conflict (current_time : string) (users_data : list OldRow) :
  ~ (NoDup (old_id <$> users_data) /\ NoDup (old_username <$> users_data)) ->
  exists e : PyExc,
    exc_class e = IntegrityError /\
    init_db current_time (mkFile (OlderTable users_data) None)
      = (Raise e, mkFile (CurrentTable []) (Some users_data)) /\
    forall later : string,
      init_db later (mkFile (CurrentTable []) (Some users_data))
        = (Ok (), mkFile (CurrentTable []) (Some users_data)).
Proof.
  intros Hdup. unfold init_db. simpl.
  destruct (copy_rows current_time users_data []) as [rows|e] eqn:Hc.
  - destruct Hdup. apply copy_rows_inv in Hc as (H1 & H2 & _). by split.
  - exists e. split_and!; [|done|done].
    clear Hdup. revert Hc. generalize (@nil Store.UserRow).
    induction users_data as [|r rest IH]; intros rows; simpl; [done|].
    unfold insert_copied at 1.
    case_bool_decide; [by intros [= <-]|].
    case_bool_decide; [by intros [= <-]|]. simpl. apply IH.
Qed.

Lemma init_db_conflict_witness :
  init_db "2025-01-01 10:00:00"
      (mkFile (OlderTable [mkOld 1 "alice" "$2b$x"; mkOld 2 "alice" "$2b$y"]) None)
    = (Raise (mkExc IntegrityError "UNIQUE constraint failed: users.username"),
       mkFile (CurrentTable [])
         (Some [mkOld 1 "alice" "$2b$x"; mkOld 2 "alice" "$2b$y"])).
Proof.
  destruct (init_db_conflict "2025-01-01 10:00:00"
              [mkOld 1 "alice" "$2b$x"; mkOld 2 "alice" "$2b$y"])
    as (e & _ & He & _).
  - intros [_ H]. apply NoDup_cons in H as [H _]. apply H. set_solver.
  - reflexivity.
Defined.

End StartupFacts.

(** ** The keys of the session *)

Module KeysFacts.
Import Keys.

#[local] Set Warnings "-inexact-float".

(** The first value a list of defaults gives a key. *)
Definition first_default (k : string) (l : list (string * PyVal)) : option PyVal :=
  snd <$> List.find (fun kv => bool_decide (kv.1 = k)) l.

Definition all_defaults (new_id : string) : list (string * PyVal) :=
  session_defaults new_id ++ callback_defaults ++ q_table_defaults.

Lemma lookup_foldl_init_key (l : list (string * PyVal)) (d : gmap string PyVal)
    (k : string) :
  foldl init_key d l !! k
    = match d !! k with Some v => Some v | None => first_default k l end.
Proof.
  revert d. induction l as [|[k1 v1] l IH]; intros d; simpl.
  - by destruct (d !! k).
  - rewrite IH. unfold init_key, first_default. simpl.
    destruct (d !! k1) as [x|] eqn:Hk1.
    + destruct (d !! k) as [v|] eqn:Hk; [done|].
      case_bool_decide as Heq; [congruence|done].
    + rewrite lookup_insert. case_decide as Heq.
      * subst k. rewrite Hk1. by rewrite bool_decide_eq_true_2.
      * destruct (d !! k); [done|]. by rewrite bool_decide_eq_false_2.
Qed.

Lemma initialise_foldl (new_id : string) (d : gmap string PyVal) :
  initialise new_id d = foldl init_key d (all_defaults new_id).
Proof.
  unfold initialise, initialize_q_table, init_callback_handlers,
    init_session_state, all_defaults. by rewrite !foldl_app.
Qed.

Lemma lookup_initialise (new_id : string) (d : gmap string PyVal) (k : string) :
  initialise new_id d !! k
    = match d !! k with
      | Some v => Some v
      | None => first_default k (all_defaults new_id)
      end.
Proof. rewrite initialise_foldl. apply lookup_foldl_init_key. Qed.

(** Whether a key is one of the defaults does not depend on the new id. *)
Lemma first_default_None (k new_id later : string) :
  first_default k (all_defaults new_id) = None ->
  first_default k (all_defaults later) = None.
Proof.
  unfold first_default, all_defaults, session_defaults. simpl.
  repeat (case_bool_decide; [done|]). done.
Qed.

(** The initialisers never overwrite a key that is set. *)
Theorem initialise_never_overwrites (new_id : string) (d : gmap string PyVal)
    (k : string) (v : PyVal) :
  d !! k = Some v -> initialise new_id d !! k = Some v.
Proof. intros Hk. by rewrite lookup_initialise, Hk. Qed.

Lemma initialise_never_overwrites_witness :
  initialise "new" {[ "temperature" := VFloat 0.9%float ]} !! "temperature"
    = Some (VFloat 0.9%float).
Proof.
  exact (initialise_never_overwrites "new" {[ "temperature" := VFloat 0.9%float ]}
           "temperature" (VFloat 0.9%float) eq_refl).
Defined.

(** After the initialisers every key of the program is set, and running
    them again changes nothing. *)
Theorem initialise_idempotent (new_id later : string) (d : gmap string PyVal) :
  (forall kv : string * PyVal,
     kv ∈ all_defaults new_id -> is_Some (initialise new_id d !! kv.1)) /\
  initialise later (initialise new_id d) = initialise new_id d.
Proof.
  split.
  - intros [k v] Hin. simpl. rewrite lookup_initialise.
    destruct (d !! k); [done|]. unfold first_default.
    destruct (List.find _ _) as [kv|] eqn:Hf; [done|].
    apply list_elem_of_In in Hin.
    pose proof (find_none _ _ Hf _ Hin) as Hno. simpl in Hno.
    by rewrite bool_decide_eq_true_2 in Hno.
  - apply map_eq. intros k. rewrite (lookup_initialise later).
    destruct (initialise new_id d !! k) as [v|] eqn:Hk; [done|].
    rewrite lookup_initialise in Hk. destruct (d !! k); [done|].
    by apply (first_default_None k new_id).
Qed.

Lemma lookup_reset_session (new_id : string) (d : gmap string PyVal) (k : string) :
  reset_session new_id d !! k
    = if decide (k = "session_id")
      then Some (default (VStr new_id) (d !! k))
      else first_default k (all_defaults new_id).
Proof.
  unfold reset_session. rewrite lookup_initialise.
  case_decide as Hk.
  - subst k. destruct (d !! "session_id") as [v|] eqn:Hd; simpl.
    + by rewrite (map_lookup_filter_Some_2 _ _ _ _ Hd).
    + rewrite (proj2 (map_lookup_filter_None _ _ _)); [done|]. by left.
  - rewrite (proj2 (map_lookup_filter_None _ _ _)); [done|].
    right. intros x _. done.
Qed.

(** The reset of [logout_callback] keeps the [session_id] and gives every
    other key its first value: the session is the one a new visit starts
    with. *)
Theorem reset_session_initial (new_id session_id : string) (d : gmap string PyVal) :
  d !! "session_id" = Some (VStr session_id) ->
  reset_session new_id d !! "session_id" = Some (VStr session_id) /\
  (forall k : string, k <> "session_id" ->
     reset_session new_id d !! k = initialise new_id ∅ !! k) /\
  typed (reset_session new_id d) = Some (App.initial_session session_id).
Proof.
  intros Hid. split_and!.
  - by rewrite lookup_reset_session, Hid.
  - intros k Hk. rewrite lookup_reset_session, lookup_initialise, lookup_empty.
    by rewrite decide_False.
  - unfold typed. rewrite !lookup_reset_session, Hid. reflexivity.
Qed.

Lemma reset_session_initial_witness :
  typed (reset_session "new"
           {[ "session_id" := VStr "sid"; "username" := VStr "alice";
              "authenticated" := VBool true ]})
    = Some (App.initial_session "sid").
Proof.
  exact (proj2 (proj2 (reset_session_initial "new" "sid"
           {[ "session_id" := VStr "sid"; "username" := VStr "alice";
              "authenticated" := VBool true ]} eq_refl))).
Defined.

End KeysFacts.

(** ** The page around the callbacks *)

Module PageFacts.
Import App Page.

#[local] Set Warnings "-inexact-float".

Lemma set_needs_rerun_fields (b : bool) (s : SessionState) :
  input_text_buffer (set_needs_rerun b s) = input_text_buffer s /\
  needs_rerun (set_needs_rerun b s) = b.
Proof. done. Qed.

(** [generate_clicked] writes neither [input_text_buffer] nor, when it
    returns with a request text, anything but [True] to [needs_rerun]. *)
Lemma generate_clicked_buffer (input_method : InputMethod) (text_input : string)
    (u : float) (c : nat) (post : Request -> Reply) (now : string)
    (s : SessionState) (w : Store.World) :
  let r := generate_clicked input_method text_input u c post now s w in
  input_text_buffer (run_session r) = input_text_buffer s /\
  (chosen_input input_method text_input s <> "" ->
   run_result r = Ok () -> needs_rerun (run_session r) = true).
Proof.
  intros r. subst r. unfold generate_clicked.
  change (chosen_input input_method text_input (set_auto_submit false s))
    with (chosen_input input_method text_input s).
  destruct (String.eqb_spec (chosen_input input_method text_input s) "") as [->|Hne];
    [done|].
  destruct (Bandit.get_action _ _ _ _); [|done].
  destruct (Bandit.actions !! _); [|done].
  destruct (post _) as [m|code text field]; [done|].
  destruct (code =? 200)%Z; [|done].
  destruct field as [m| |t]; [done| |];
    (lazymatch goal with
     | |- context [extract_code ?x] => destruct (extract_code x) as [generated|e]
     end; [|done]; simpl;
     destruct (authenticated s); [|done];
     lazymatch goal with
     | |- context [Store.save_chat_history ?n ?i ?g ?t w] =>
         destruct (Store.save_chat_history n i g t w) as [[[]|e] w1]
     end; done).
Qed.

(** The buffer that voice, image and document input fill is never cleared
    by a generation, whether it was clicked or submitted by itself; a later
    click with an empty text area sends the buffer again. *)
Theorem buffer_outlives_generation (clicked : bool) (i : InputWidget)
    (u : float) (c : nat) (post : Request -> Reply) (now : string)
    (s : SessionState) (w : Store.World) :
  let r := submit_stage clicked i u c post now s w in
  input_text_buffer (run_session r) = input_text_buffer s /\
  chosen_input Text "" (run_session r) = input_text_buffer s.
Proof.
  intros r. subst r. unfold submit_stage.
  destruct (clicked || auto_submit s); [|done].
  destruct (generate_clicked_buffer (input_method i) (text_input i) u c post now s w)
    as [Hb _].
  split; [done|]. unfold chosen_input. simpl. done.
Qed.

(** An upload that yields a text is submitted in the same run without any
    click: the text becomes the request, and the run, when it returns, ends
    in [st.rerun()]. *)
Theorem upload_submits_itself (i : InputWidget) (text : string) (p : PageState)
    (u : float) (c : nat) (post : Request -> Reply) (now : string)
    (w : Store.World) :
  i = ImageUploader (Some (Some text)) \/ i = DocumentUploader (Some (Some text)) ->
  text <> "" ->
  let s := session (input_stage i p) in
  let r := submit_stage false i u c post now s w in
  r = generate_clicked (input_method i) "" u c post now s w /\
  chosen_input (input_method i) "" s = text /\
  (run_result r = Ok () -> snd (rerun_stage (run_session r)) = true).
Proof.
  intros Hi Hne s r.
  assert (Hs : s = set_auto_submit true
                     (set_needs_rerun true (set_input_text_buffer text (session p)))).
  { subst s. unfold input_stage, update_input_buffer.
    destruct Hi as [-> | ->];
      by rewrite (proj2 (String.eqb_neq text "") Hne). }
  assert (Hm : input_method i <> Text) by (by destruct Hi as [-> | ->]).
  assert (Hti : text_input i = "") by (by destruct Hi as [-> | ->]).
  assert (Hin : chosen_input (input_method i) "" s = text).
  { rewrite Hs. unfold chosen_input. by destruct (input_method i). }
  assert (Ha : auto_submit s = true) by (by rewrite Hs).
  assert (Hr : r = generate_clicked (input_method i) "" u c post now s w).
  { subst r. unfold submit_stage. by rewrite Ha, Hti. }
  split_and!; [done|done|].
  destruct (generate_clicked_buffer (input_method i) "" u c post now s w)
    as [_ Hrerun].
  rewrite Hr. intros Hok. unfold rerun_stage.
  rewrite Hrerun; [done| |done]. rewrite Hin. done.
Qed.

Lemma upload_submits_itself_witness :
  let i := ImageUploader (Some (Some "sort a list")) in
  let p := mkPage (initial_session "sid") false in
  let post := fun _ : Request => Response 200 "" (FieldStr "print(1)") in
  generated_code
    (run_session (submit_stage false i 0.5 0 post "2025-01-01 10:00:00"
                    (session (input_stage i p)) GenerateFacts.sample_world))
    = "print(1)" /\
  chosen_input (input_method i) "" (session (input_stage i p)) = "sort a list".
Proof.
  cbv zeta.
  destruct (upload_submits_itself (ImageUploader (Some (Some "sort a list")))
              "sort a list" (mkPage (initial_session "sid") false) 0.5 0
              (fun _ => Response 200 "" (FieldStr "print(1)"))
              "2025-01-01 10:00:00" GenerateFacts.sample_world)
    as (Hr & Hin & _); [by left|discriminate|].
  split; [|exact Hin]. rewrite Hr. reflexivity.
Defined.

(** The two entries the login shows for a row of the history, in the order
    of [chat_history] and in the order of the sidebar. *)
Definition shown_pair (row : string * string * string) : list string :=
  let '(timestamp, user_input, generated) := row in
  [ user_entry indent12 timestamp user_input;
    code_entry indent12 timestamp generated ].

Definition shown_pair_reversed (row : string * string * string) : list string :=
  let '(timestamp, user_input, generated) := row in
  [ code_entry indent12 timestamp generated;
    user_entry indent12 timestamp user_input ].

Lemma length_concat_pairs (h : list (string * string * string)) :
  length (concat (shown_pair <$> h)) = (2 * length h)%nat.
Proof.
  induction h as [|[[t ui] g] h IH]; [done|].
  rewrite fmap_cons, concat_cons, length_app, IH.
  change (length (shown_pair (t, ui, g))) with 2%nat. simpl length. lia.
Qed.

Lemma drop_concat_pairs (k : nat) (h : list (string * string * string)) :
  drop (2 * k) (concat (shown_pair <$> h)) = concat (shown_pair <$> drop k h).
Proof.
  revert h. induction k as [|k IH]; intros h; [done|].
  destruct h as [|[[t ui] g] h]; [done|].
  replace (2 * S k)%nat with (S (S (2 * k))) by lia.
  rewrite fmap_cons, concat_cons. apply IH.
Qed.

Lemma reverse_concat_pairs (h : list (string * string * string)) :
  reverse (concat (shown_pair <$> h)) = concat (shown_pair_reversed <$> reverse h).
Proof.
  induction h as [|[[t ui] g] h IH]; [done|].
  rewrite fmap_cons, concat_cons, reverse_cons, fmap_app, concat_app, <- IH.
  change (shown_pair (t, ui, g) ++ concat (shown_pair <$> h))
    with (user_entry indent12 t ui :: code_entry indent12 t g
            :: concat (shown_pair <$> h)).
  rewrite !reverse_cons, <- !app_assoc. done.
Qed.

(** After a login the sidebar counts the rows that were loaded, ten at
    most, whatever the store holds; and it shows the five oldest of them,
    the oldest first, each with its code above its request. *)
Theorem sidebar_after_login (checkpw : string -> string -> Res bool)
    (login_username login_password message : string) (s : SessionState)
    (w : Store.World) (preferences : Store.Preferences)
    (history : list (string * string * string)) :
  Store.authenticate_user checkpw login_username login_password w
    = Ok (true, message) ->
  Store.get_user_preferences login_username w = Ok preferences ->
  Store.load_chat_history login_username w = Ok history ->
  let s' := run_session (login_callback checkpw login_username login_password s w) in
  codes_generated s' = length history /\
  (length history <= 10)%nat /\
  sidebar_messages s' = concat (shown_pair_reversed <$> take 5 (reverse history)).
Proof.
  intros Hauth Hprefs Hload s'.
  assert (Hchat : chat_history s' = concat (shown_pair <$> history)).
  { subst s'. unfold login_callback. rewrite Hauth, Hprefs, Hload. simpl.
    done. }
  assert (Hlen : (length history <= 10)%nat).
  { unfold Store.load_chat_history in Hload.
    destruct (Store.tenants w !! _) as [db|]; [|injection Hload as <-; simpl; lia].
    destruct (Store.chat_history db) as [chats|]; [|done].
    injection Hload as <-. rewrite length_fmap, length_take. lia. }
  split_and!; [|done|].
  - unfold codes_generated. rewrite Hchat, length_concat_pairs.
    by rewrite Nat.mul_comm, Nat.div_mul.
  - unfold sidebar_messages. rewrite Hchat, length_concat_pairs.
    replace (2 * length history - 10)%nat with (2 * (length history - 5))%nat by lia.
    by rewrite drop_concat_pairs, reverse_concat_pairs, take_reverse.
Qed.

(** A user with six saved generations, one per hour from ten o'clock. *)
Definition six_hours : list string :=
  [ "2025-01-01 10:00:00"; "2025-01-01 11:00:00"; "2025-01-01 12:00:00";
    "2025-01-01 13:00:00"; "2025-01-01 14:00:00"; "2025-01-01 15:00:00" ].

Definition busy_world : Store.World :=
  foldl (fun w now =>
           (Store.save_chat_history "alice" ("request of " +:+ now)
              ("code of " +:+ now) now w).2)
    (Store.register_user StoreFacts.plain_hashpw "alice" "pw" "salt"
       "2025-01-01 09:00:00" StoreFacts.clean_world).2
    six_hours.

Lemma sidebar_after_login_witness :
  let s' := run_session (login_callback StoreFacts.plain_checkpw "alice" "pw"
                           (initial_session "sid") busy_world) in
  codes_generated s' = 6%nat /\
  sidebar_messages s'
    = concat ((fun now => [ code_entry indent12 now ("code of " +:+ now);
                            user_entry indent12 now ("request of " +:+ now) ])
                <$> take 5 six_hours).
Proof.
  cbv zeta.
  edestruct (sidebar_after_login StoreFacts.plain_checkpw "alice" "pw"
               "Login successful!" (initial_session "sid") busy_world)
    as (Hcount & _ & Hshown); [vm_compute; reflexivity ..|].
  split; [exact Hcount|]. rewrite Hshown. vm_compute. reflexivity.
Defined.

End PageFacts.

(** ** From the response to the code that runs *)

Module PipelineFacts.
Import Text TextFacts SplitFacts Code App.

Section sequences.
Context {A : Type} `{EqDecision A}.
Implicit Types sep l : list A.

(** The leftmost separator of a text is the leftmost one of the text cut
    behind it. *)
Lemma find_cut sep l (k : nat) :
  find sep l = Some k -> find sep (take k l ++ sep) = Some (length (take k l)).
Proof.
  intros Hk. destruct (find_Some _ _ _ Hk) as (Hle & Hs & Hmin).
  assert (Hlen : length (take k l) = k) by (by apply length_take_le).
  assert (Hl : l = (take k l ++ sep) ++ drop (k + length sep) l)
    by (rewrite <- app_assoc; by apply find_split).
  assert (Hhere : starts_with sep (drop k (take k l ++ sep)) = true).
  { rewrite <- Hlen at 1. rewrite drop_app_length. apply starts_with_app.
    exists []. by rewrite app_nil_r. }
  destruct (find sep (take k l ++ sep)) as [j|] eqn:Hj.
  - destruct (find_Some _ _ _ Hj) as (Hjle & Hjs & Hjmin).
    destruct (Nat.lt_trichotomy j k) as [Hlt|[->|Hgt]].
    + exfalso. specialize (Hmin j Hlt). rewrite Hl in Hmin.
      pose proof (starts_with_length _ _ Hjs) as Hn.
      rewrite drop_app_le in Hmin by lia.
      by rewrite (starts_with_app_l _ _ _ Hjs) in Hmin.
    + by rewrite Hlen.
    + by rewrite (Hjmin k Hgt) in Hhere.
  - by rewrite (find_None _ _ k Hj) in Hhere.
Qed.

Lemma find_tail sep l (a : A) (n : nat) :
  starts_with sep (a :: l) = false ->
  find sep (a :: l) = Some (S n) -> find sep l = Some n.
Proof.
  intros Hs. simpl find. rewrite Hs.
  destruct (find sep l) as [k|]; [|done]. by intros [= ->].
Qed.

End sequences.

(** The parts of a text that was split in three or more. *)
Lemma split_three (sep l first second : list ascii) (rest : list (list ascii)) :
  sep <> [] -> split sep l = first :: second :: rest -> rest <> [] ->
  exists i k : nat,
    find sep l = Some i /\
    find sep (drop (i + length sep) l) = Some k /\
    second = take k (drop (i + length sep) l).
Proof.
  intros Hsep Hsplit Hrest.
  destruct (find sep l) as [i|] eqn:Hi;
    [|by rewrite (split_None _ _ Hi) in Hsplit].
  rewrite (split_cons _ _ _ Hsep Hi) in Hsplit.
  injection Hsplit as _ Hsplit.
  destruct (find sep (drop (i + length sep) l)) as [k|] eqn:Hk.
  - rewrite (split_cons _ _ _ Hsep Hk) in Hsplit.
    injection Hsplit as <- _. eauto.
  - rewrite (split_None _ _ Hk) in Hsplit. injection Hsplit as _ <-. done.
Qed.

(** A response with a closed fence, from the generation to the Execute
    button: [extract_code] keeps the first block between two fences, and
    the code handed to [execute_python_code] is that block, without the
    [python] tag when the block starts with it. *)
Theorem executed_code_is_first_block (raw first block third : string)
    (more : list string) :
  py_split "```" (py_strip raw) = first :: block :: third :: more ->
  extract_code raw = Ok ("```" +:+ block +:+ "```") /\
  (forall body : string,
     block = "python" +:+ body ->
     clean_code ("```" +:+ block +:+ "```") = Ok body) /\
  (py_in "```python" ("```" +:+ block +:+ "```") = false ->
   clean_code ("```" +:+ block +:+ "```") = Ok block).
Proof.
  intros Hsplit. unfold py_split in Hsplit.
  destruct (split (chars "```") (chars (py_strip raw)))
    as [|f [|b [|t m]]] eqn:Hparts; try done.
  injection Hsplit as _ Hb _ _.
  destruct (split_three _ _ _ _ _ CodeFacts.fence_not_empty Hparts)
    as (i & k & Hi & Hk & ->); [done|].
  set (r := drop (i + length (chars "```")) (chars (py_strip raw))) in *.
  pose proof (find_cut _ _ _ Hk) as Hcut.
  assert (Hfind : py_find "```" (block +:+ "```") = Some (String.length block)).
  { unfold py_find. by rewrite <- Hb, chars_app, chars_str, length_str. }
  split_and!.
  - unfold extract_code, fence.
    rewrite (proj2 (py_in_true _ _) (ex_intro _ i Hi)).
    unfold py_split. by rewrite Hparts, <- Hb.
  - intros body ->.
    assert (Hbody : py_find "```" (body +:+ "```") = Some (String.length body)).
    { unfold py_find in Hfind |- *.
      change (chars (("python" +:+ body) +:+ "```"))
        with ("p" :: "y" :: "t" :: "h" :: "o" :: "n" :: chars (body +:+ "```"))%char
        in Hfind.
      change (String.length ("python" +:+ body))
        with (S (S (S (S (S (S (String.length body))))))) in Hfind.
      do 6 (apply find_tail in Hfind; [|done]). exact Hfind. }
    exact (proj1 (CodeFacts.clean_code_fenced body Hbody)).
  - exact (proj2 (CodeFacts.clean_code_fenced block Hfind)).
Qed.

Lemma executed_code_is_first_block_witness :
  extract_code "Sure: ```python
print(1)
``` Done." = Ok "```python
print(1)
```" /\
  clean_code "```python
print(1)
```" = Ok "
print(1)
".
Proof.
  destruct (executed_code_is_first_block "Sure: ```python
print(1)
``` Done." "Sure: " "python
print(1)
" " Done." [] eq_refl) as (Hextract & Hclean & _).
  split; [exact Hextract|]. exact (Hclean _ eq_refl).
Defined.

End PipelineFacts.

(** ** The bandit over a session *)

Module LearningFacts.
Import F64 F64Facts Bandit BanditFacts App.

#[local] Set Warnings "-inexact-float".

(** The table has one entry for each template and the last action is one
    of them. *)
Definition bandit_ok (s : SessionState) : Prop :=
  length (Q_table s) = num_actions /\ (last_action_idx s < num_actions)%nat.

Lemma np_argmax_bound (V : list float) (i : nat) :
  np_argmax V = Ok i -> (i < length V)%nat.
Proof.
  intros Hi. assert (HV : V <> []) by (by intros ->).
  destruct (np_argmax_spec V HV) as (k & m & Hk & _ & Hm & _).
  rewrite Hi in Hk. injection Hk as <-. by eapply lookup_lt_Some.
Qed.

Lemma get_action_bound (V : list float) (epsilon u : float) (c i : nat) :
  (c < length V)%nat -> get_action V epsilon u c = Ok i -> (i < length V)%nat.
Proof.
  unfold get_action. destruct (PrimFloat.ltb u epsilon).
  - by intros Hc [= <-].
  - intros _. apply np_argmax_bound.
Qed.

Lemma get_action_ok (V : list float) (epsilon u : float) (c : nat) :
  V <> [] -> exists i : nat, get_action V epsilon u c = Ok i.
Proof.
  intros HV. unfold get_action. destruct (PrimFloat.ltb u epsilon); [eauto|].
  destruct (np_argmax_spec V HV) as (k & m & Hk & _). eauto.
Qed.

Lemma bandit_ok_initial (session_id : string) : bandit_ok (initial_session session_id).
Proof. split; [done|]. simpl. unfold num_actions. simpl. lia. Qed.

(** In a session that holds its table of four values, the Generate button
    raises nothing, whatever the API answers and whatever the store does:
    the action is the index of a template, the table is not touched and
    every failure is shown as a message. *)
Theorem generate_clicked_does_not_raise (input_method : InputMethod)
    (text_input : string) (u : float) (c : nat) (post : Request -> Reply)
    (now : string) (s : SessionState) (w : Store.World) :
  bandit_ok s -> (c < num_actions)%nat ->
  let r := generate_clicked input_method text_input u c post now s w in
  run_result r = Ok () /\
  bandit_ok (run_session r) /\
  Q_table (run_session r) = Q_table s.
Proof.
  intros [Hlen Hlast] Hc r. subst r. unfold generate_clicked.
  destruct (String.eqb _ "") ; [by split_and!|].
  cbn [Q_table set_auto_submit].
  assert (HV : Q_table s <> []) by (intros E; by rewrite E in Hlen).
  destruct (get_action_ok (Q_table s) default_epsilon u c HV) as [a Ha].
  pose proof (get_action_bound _ _ _ _ _ ltac:(by rewrite Hlen) Ha) as Hbound.
  rewrite Hlen in Hbound. rewrite Ha.
  destruct (lookup_lt_is_Some_2 actions a Hbound) as [template ->].
  assert (Hok : forall s' : SessionState,
            Q_table s' = Q_table s -> last_action_idx s' = a -> bandit_ok s').
  { intros s' HQ Ha'. split; by rewrite ?HQ, ?Ha'. }
  destruct (post _) as [m|code text field]; [by split_and!; [|apply Hok|]|].
  destruct (code =? 200)%Z; [|by split_and!; [|apply Hok|]].
  destruct field as [m| |t]; [by split_and!; [|apply Hok|]| |];
    (lazymatch goal with
     | |- context [extract_code ?x] => destruct (extract_code x) as [generated|e]
     end; [|by split_and!; [|apply Hok|]]; simpl;
     destruct (authenticated s); [|by split_and!; [|apply Hok|]];
     lazymatch goal with
     | |- context [Store.save_chat_history ?n ?i ?g ?t w] =>
         destruct (Store.save_chat_history n i g t w) as [[[]|e] w1]
     end; by split_and!; [|apply Hok|]).
Qed.

Lemma generate_clicked_does_not_raise_witness :
  let r := generate_clicked Text "add two numbers" 0.5 3
             (fun _ => PostRaises "Read timed out.") "2025-01-01 10:00:00"
             (initial_session "sid") GenerateFacts.sample_world in
  run_result r = Ok () /\ Q_table (run_session r) = initial_Q_table.
Proof.
  cbv zeta.
  destruct (generate_clicked_does_not_raise Text "add two numbers" 0.5 3
              (fun _ => PostRaises "Read timed out.") "2025-01-01 10:00:00"
              (initial_session "sid") GenerateFacts.sample_world)
    as (Hok & _ & HQ);
    [split; [reflexivity|unfold num_actions; simpl; lia]
    |unfold num_actions; simpl; lia|].
  split; [exact Hok|exact HQ].
Defined.

(** In such a session a feedback button raises nothing either: the score
    moves by the value of the button, the entry of the last action is
    rewritten and no other, and the table keeps its four entries. *)
Theorem feedback_clicked_learns (f : Feedback) (s : SessionState) :
  bandit_ok s ->
  exists s' : SessionState,
    feedback_clicked f s = (Ok (), s') /\
    bandit_ok s' /\
    feedback_score s' = (feedback_score s + score_change f)%Z /\
    feedback_submitted s' = true /\
    last_action_idx s' = last_action_idx s /\
    forall j : nat, j <> last_action_idx s -> Q_table s' !! j = Q_table s !! j.
Proof.
  intros [Hlen Hlast]. unfold feedback_clicked, update_Q.
  cbn [Q_table last_action_idx set_feedback_score].
  assert (HV : Q_table s <> []) by (intros E; by rewrite E in Hlen).
  destruct (np_argmax_spec _ HV) as (k & m & _ & -> & _).
  cbn [mbind Res_bind].
  destruct (lookup_lt_is_Some_2 (Q_table s) (last_action_idx s)) as [q ->];
    [by rewrite Hlen|].
  eexists. split; [done|]. split_and!; try done.
  - split; simpl; [by rewrite length_insert|done].
  - intros j Hj. simpl. by rewrite list_lookup_insert_ne.
Qed.

Lemma feedback_clicked_learns_witness :
  exists s' : SessionState,
    feedback_clicked Excellent (initial_session "sid") = (Ok (), s') /\
    feedback_score s' = 2%Z.
Proof.
  destruct (feedback_clicked_learns Excellent (initial_session "sid"))
    as (s' & Hs' & _ & Hscore & _);
    [split; [reflexivity|unfold num_actions; simpl; lia]|].
  exists s'. split; [exact Hs'|exact Hscore].
Defined.

End LearningFacts.

(** ** Accounts: registering once, and the first login *)

Module AccountFacts.
Import Store StoreFacts.

#[local] Set Warnings "-inexact-float".

(** A name is registered once: after a registration that succeeded, a
    second one with the same name, whatever its password, is refused with
    [Username already exists.] and writes nothing. *)
Theorem second_registration_refused (hashpw : string -> string -> Res string)
    (username password salt now message : string) (w w1 : World)
    (password' salt' now' hashed' : string) :
  register_user hashpw username password salt now w = (Ok (true, message), w1) ->
  hashpw password' salt' = Ok hashed' ->
  register_user hashpw username password' salt' now' w1
    = (Ok (false, "Username already exists."), w1).
Proof.
  intros (hashed & _ & _ & Hus & _)%register_user_success Hh.
  unfold register_user, hash_password. rewrite Hh.
  rewrite bool_decide_eq_true_2; [done|].
  rewrite Hus, fmap_app. set_solver.
Qed.

Section credentials.

Variable hashpw : string -> string -> Res string.
Variable checkpw : string -> string -> Res bool.

(** The first login after a registration, for a name that had no tenant
    file: the password logs in, the session gets the default preferences
    (0.7, 5, python) and an empty history, and nothing is written. *)
Theorem first_login (username password salt now message : string)
    (s : App.SessionState) (w w1 : World) :
  ideal_hash hashpw checkpw ->
  tenants w !! user_db_path username = None ->
  register_user hashpw username password salt now w = (Ok (true, message), w1) ->
  let r := App.login_callback checkpw username password s w1 in
  App.run_result r = Ok () /\
  App.run_world r = w1 /\
  App.authenticated (App.run_session r) = true /\
  App.username (App.run_session r) = username /\
  App.temperature (App.run_session r) = Some 0.7%float /\
  App.speed (App.run_session r) = 5%Z /\
  App.code_language (App.run_session r) = "python" /\
  App.chat_history (App.run_session r) = [].
Proof.
  intros Hideal Hfresh Hreg r.
  assert (Hauth : authenticate_user checkpw username password w1
                  = Ok (true, "Login successful!")).
  { destruct (register_user_success _ _ _ _ _ _ _ _ Hreg)
      as (hashed & Hh & Hnot & Hus & _).
    unfold authenticate_user, verify_password.
    rewrite Hus, (find_username_new _ _ _ Hnot) by done. simpl.
    rewrite (Hideal _ _ _ password Hh). simpl. by rewrite bool_decide_eq_true_2. }
  assert (Hdb : tenants w1 !! user_db_path username
                = Some (mkTenant (Some []) (Some [mkPrefRow 1 default_preferences]))).
  { unfold register_user, hash_password in Hreg.
    destruct (hashpw password salt) as [hashed|e];
      [|unfold register_handlers in Hreg;
        destruct (exc_class e); try done; by destruct (is_Exception _)].
    case_bool_decide; [done|].
    unfold create_user_db, sqlite3_connect in Hreg. simpl in Hreg.
    rewrite Hfresh in Hreg.
    destruct (openable w _).
    - injection Hreg as _ <-. simpl. by rewrite lookup_insert_eq.
    - done. }
  subst r. unfold App.login_callback. rewrite Hauth.
  unfold get_user_preferences, load_chat_history. rewrite Hdb. simpl.
  by split_and!.
Qed.

End credentials.

Lemma second_registration_refused_witness :
  let w1 := (register_user plain_hashpw "alice" "secret1" "salt"
               "2025-01-01 10:00:00" clean_world).2 in
  register_user plain_hashpw "alice" "another2" "salt2" "2025-01-02 10:00:00" w1
    = (Ok (false, "Username already exists."), w1).
Proof.
  cbv zeta.
  apply (second_registration_refused plain_hashpw "alice" "secret1" "salt"
           "2025-01-01 10:00:00" "Registration successful!" clean_world _
           "another2" "salt2" "2025-01-02 10:00:00" "$2b$another2");
    reflexivity.
Defined.

Lemma first_login_witness :
  let w1 := (register_user plain_hashpw "alice" "secret1" "salt"
               "2025-01-01 10:00:00" clean_world).2 in
  let r := App.login_callback plain_checkpw "alice" "secret1"
             (App.initial_session "sid") w1 in
  App.authenticated (App.run_session r) = true /\
  App.chat_history (App.run_session r) = [].
Proof.
  cbv zeta.
  destruct (first_login plain_hashpw plain_checkpw "alice" "secret1" "salt"
              "2025-01-01 10:00:00" "Registration successful!"
              (App.initial_session "sid") clean_world
              (register_user plain_hashpw "alice" "secret1" "salt"
                 "2025-01-01 10:00:00" clean_world).2
              plain_hash_ideal eq_refl eq_refl)
    as (_ & _ & Hauth & _ & _ & _ & _ & Hhist).
  split; [exact Hauth|exact Hhist].
Defined.

End AccountFacts.

(** ** The stored history *)

Module HistoryFacts.
Import Store StoreFacts.

#[local] Set Warnings "-inexact-float".

Lemma insert_desc_older (r newest : ChatRow) (l : list ChatRow) :
  String.ltb (chat_timestamp r) (chat_timestamp newest) = true ->
  insert_desc r (newest :: l) = newest :: insert_desc r l.
Proof. intros H. simpl. by rewrite H. Qed.

(** A row newer than every row of the table sorts first. *)
Lemma order_by_timestamp_desc_newest (chats : list ChatRow) (row : ChatRow) :
  Forall (fun r => String.ltb (chat_timestamp r) (chat_timestamp row) = true) chats ->
  order_by_timestamp_desc (chats ++ [row]) = row :: order_by_timestamp_desc chats.
Proof.
  unfold order_by_timestamp_desc. rewrite foldr_app. simpl.
  induction 1 as [|r chats Hr _ IH]; simpl; [done|].
  by rewrite IH, insert_desc_older.
Qed.

(** A generation saved with a timestamp later than every stored one is the
    first entry the next [load_chat_history] returns; the entries loaded
    before follow it, the tenth of them dropped. *)
Theorem saved_generation_is_loaded_first
    (username user_input generated now : string) (w : World) (db : TenantDB)
    (chats : list ChatRow) :
  tenants w !! user_db_path username = Some db ->
  chat_history db = Some chats ->
  Forall (fun r => String.ltb (chat_timestamp r) now = true) chats ->
  exists before : list (string * string * string),
    load_chat_history username w = Ok before /\
    fst (save_chat_history username user_input generated now w) = Ok () /\
    load_chat_history username
        (snd (save_chat_history username user_input generated now w))
      = Ok ((now, user_input, generated) :: take 9 before).
Proof.
  intros Hw Hchats Hnew.
  exists ((fun r => (chat_timestamp r, chat_user_input r, chat_generated_code r))
            <$> take 10 (order_by_timestamp_desc chats)).
  unfold save_chat_history, load_chat_history, sqlite3_connect.
  rewrite Hw, Hchats. simpl. rewrite lookup_insert_eq. simpl.
  split_and!; [done|done|].
  rewrite order_by_timestamp_desc_newest by done. simpl.
  by rewrite <- fmap_take, take_take.
Qed.

Lemma saved_generation_is_loaded_first_witness :
  load_chat_history "alice"
    (snd (save_chat_history "alice" "sort a list" "print(1)"
            "2025-01-01 16:00:00" PageFacts.busy_world))
  = Ok (("2025-01-01 16:00:00", "sort a list", "print(1)")
          :: take 9 ((fun now => (now, "request of " +:+ now, "code of " +:+ now))
                       <$> reverse PageFacts.six_hours)).
Proof.
  edestruct (saved_generation_is_loaded_first "alice" "sort a list" "print(1)"
               "2025-01-01 16:00:00" PageFacts.busy_world)
    as (before & Hbefore & _ & Hafter);
    [vm_compute; reflexivity|vm_compute; reflexivity
    |repeat constructor|].
  rewrite Hafter. f_equal. f_equal. f_equal.
  vm_compute in Hbefore. injection Hbefore as <-. vm_compute. reflexivity.
Defined.

Lemma load_after_update (username : string) (p : Preferences) (w : World) :
  fst (update_user_preferences username p w) = Ok () ->
  load_chat_history username (snd (update_user_preferences username p w))
    = load_chat_history username w.
Proof.
  unfold update_user_preferences, load_chat_history, sqlite3_connect.
  destruct (tenants w !! user_db_path username) as [db|] eqn:Hdb.
  - destruct (user_preferences db); [|done].
    destruct (fits_int64 _); [|done]. intros _. simpl.
    by rewrite lookup_insert_eq.
  - by destruct (openable w _).
Qed.

(** [Clear History] empties the history of the session only: the rows stay
    in the tenant store, and after a logout the next login shows them
    again. *)
Theorem cleared_history_returns (checkpw : string -> string -> Res bool)
    (password message : string) (s : App.SessionState) (w : World)
    (preferences : Preferences) (history : list (string * string * string)) :
  let cleared := Page.clear_history_clicked s in
  let out := App.logout_callback cleared w in
  let back := App.login_callback checkpw (App.username s) password
                (App.run_session out) (App.run_world out) in
  App.authenticated s = true -> App.username s <> "" ->
  App.run_result out = Ok () ->
  authenticate_user checkpw (App.username s) password (App.run_world out)
    = Ok (true, message) ->
  get_user_preferences (App.username s) (App.run_world out) = Ok preferences ->
  load_chat_history (App.username s) w = Ok history ->
  Page.sidebar_messages cleared = [] /\
  Page.codes_generated cleared = 0%nat /\
  App.chat_history (App.run_session back)
    = concat (PageFacts.shown_pair <$> history).
Proof.
  intros cleared out back Hauth Hname Hout Hlogin Hprefs Hload.
  split_and!; [done|done|].
  assert (Hne : String.eqb (App.username s) "" = false)
    by (by apply String.eqb_neq).
  assert (Hw : load_chat_history (App.username s) (App.run_world out) = Ok history).
  { rewrite <- Hload. subst out cleared. unfold App.logout_callback in *.
    cbn [App.authenticated App.username Page.clear_history_clicked
         App.set_needs_rerun App.set_chat_history App.temperature App.speed
         App.code_language] in *.
    rewrite Hauth, Hne in *. cbn [andb negb] in *.
    pose proof (load_after_update (App.username s)
      (mkPrefs (App.temperature s) (App.speed s) (App.code_language s)) w) as Hsame.
    destruct (update_user_preferences _ _ w) as [[[]|e] w1]; [|done].
    by apply Hsame. }
  subst back. unfold App.login_callback. by rewrite Hlogin, Hprefs, Hw.
Qed.

(** An authenticated session of alice. *)
Definition alice_session : App.SessionState :=
  App.set_username "alice" (App.set_authenticated true (App.initial_session "sid")).

Lemma cleared_history_returns_witness :
  let s := alice_session in
  let out := App.logout_callback (Page.clear_history_clicked s)
               PageFacts.busy_world in
  let back := App.login_callback plain_checkpw (App.username s) "pw"
                (App.run_session out) (App.run_world out) in
  length (App.chat_history (App.run_session back)) = 12%nat.
Proof.
  cbv zeta.
  edestruct (cleared_history_returns plain_checkpw "pw" "Login successful!"
               alice_session PageFacts.busy_world)
    as (_ & _ & Hback);
    [vm_compute; reflexivity|vm_compute; discriminate|vm_compute; reflexivity..|].
  rewrite Hback. vm_compute. reflexivity.
Defined.

End HistoryFacts.

(** ** The Execute button *)

Module RunFacts.
Import Text Code Exec Page.




End RunFacts.

(** ** Logging in, in the states the callbacks reach *)

Module ReachFacts.
Import Store StoreFacts FlowFacts.

#[local] Set Warnings "-inexact-float".

Section steps.

Variable hashpw : string -> string -> Res string.
Variable checkpw : string -> string -> Res bool.


End steps.




End ReachFacts.

(** ** Sample runs *)

Module Samples.
Import Store StoreFacts.

#[local] Set Warnings "-inexact-float".

Lemma authenticate_after_register_witness :
  let w1 := (register_user plain_hashpw "alice" "secret1" "salt"
               "2025-01-01 10:00:00" clean_world).2 in
  authenticate_user plain_checkpw "alice" "secret1" w1
    = Ok (true, "Login successful!") /\
  authenticate_user plain_checkpw "alice" "secret2" w1
    = Ok (false, "Incorrect password.").
Proof.
  cbv zeta. split.
  - exact (authenticate_after_register plain_hashpw plain_checkpw "alice" "secret1"
             "salt" "2025-01-01 10:00:00" "Registration successful!" "secret1"
             clean_world _ plain_hash_ideal eq_refl).
  - exact (authenticate_after_register plain_hashpw plain_checkpw "alice" "secret1"
             "salt" "2025-01-01 10:00:00" "Registration successful!" "secret2"
             clean_world _ plain_hash_ideal eq_refl).
Defined.

Lemma authenticate_unknown_witness :
  authenticate_user plain_checkpw "bob" "secret1" PageFacts.busy_world
    = Ok (false, "Username not found.").
Proof.
  apply (authenticate_unknown plain_checkpw "bob" "secret1" PageFacts.busy_world).
  change (user_username <$> users PageFacts.busy_world) with ["alice"].
  apply not_elem_of_cons. split; [discriminate|apply not_elem_of_nil].
Defined.




End Samples.
